(** * ghSpyglass: counting GitHub repositories in a date range

    A shallow embedding of [gh_spyglass.py] and the properties of its
    query builder, its recursive range counter and its command-line driver.

    Conventions.
    - A Python [int] is a [Z]; a Python [str] is a [string].
    - A [datetime] is the number of microseconds elapsed since the start of
      proleptic ordinal day 0, so that the calendar date of a datetime is its
      quotient by the number of microseconds in a day, and is exactly
      Python's [date.toordinal()].  A [timedelta] is a number of
      microseconds. Both have microsecond resolution, as in Python.
    - The HTTP server, the date parser [datetime.strptime] and the process
      environment are collaborators of the program: they are parameters of
      the development.
    - A JSON response body is a finite map from field names to integers,
      the shape the Search API documents; [int] is the identity on it. *)

From Stdlib Require Import ZArith QArith Ascii.
From stdpp Require Import base gmap strings list pretty.

Local Open Scope string_scope.
Local Open Scope Z_scope.

(** ** Dates and times, as the [datetime] module computes them *)

Module PyDatetime.

Definition datetime := Z.
Definition timedelta := Z.
Definition date := Z.

Definition us_per_second : Z := 1000000.
Definition us_per_day : Z := 86400 * us_per_second.

(** [date.min.toordinal()] and [date.max.toordinal()]. *)
Definition min_ordinal : Z := 1.
Definition max_ordinal : Z := 3652059.

(** [datetime.min] is 0001-01-01T00:00:00 and [datetime.max] is
    9999-12-31T23:59:59.999999. *)
Definition dt_min : datetime := min_ordinal * us_per_day.
Definition dt_max : datetime := (max_ordinal + 1) * us_per_day - 1.

Definition dt_valid (d : datetime) : Prop := dt_min <= d <= dt_max.

(** [datetime.combine(date, time.min)]: the first instant of a day, which is
    what [strptime] yields for a format without time fields. *)
Definition midnight (d : date) : datetime := d * us_per_day.

(** [dt.date()], as an ordinal. *)
Definition date_of (d : datetime) : date := d / us_per_day.

(** [timedelta(seconds=n)]. *)
Definition timedelta_seconds (n : Z) : timedelta := n * us_per_second.

(** [end - start] on datetimes. *)
Definition dt_sub (a b : datetime) : timedelta := a - b.

(** [_divide_and_round]: the quotient rounded to the nearest integer, ties
    going to the even one; this is how a [timedelta] is divided by an
    [int]. *)
Definition divide_and_round (a b : Z) : Z :=
  let q := a / b in
  let r := a mod b in
  let r := r * 2 in
  let greater_than_half := if 0 <? b then b <? r else r <? b in
  if greater_than_half || ((r =? b) && (q mod 2 =? 1)) then q + 1 else q.

Definition td_div (t : timedelta) (n : Z) : timedelta := divide_and_round t n.

(** ** The proleptic Gregorian calendar *)

Definition DAYS_IN_MONTH : list Z :=
  [-1; 31; 28; 31; 30; 31; 30; 31; 31; 30; 31; 30; 31].
Definition DAYS_BEFORE_MONTH : list Z :=
  [-1; 0; 31; 59; 90; 120; 151; 181; 212; 243; 273; 304; 334].

Definition DI400Y : Z := 146097.
Definition DI100Y : Z := 36524.
Definition DI4Y : Z := 1461.

Definition is_leap (year : Z) : bool :=
  (year mod 4 =? 0) && (negb (year mod 100 =? 0) || (year mod 400 =? 0)).

Definition days_before_year (year : Z) : Z :=
  let y := year - 1 in
  y * 365 + y / 4 - y / 100 + y / 400.

Definition days_in_month (year month : Z) : Z :=
  if (month =? 2) && is_leap year then 29
  else nth (Z.to_nat month) DAYS_IN_MONTH 0.

Definition days_before_month (year month : Z) : Z :=
  nth (Z.to_nat month) DAYS_BEFORE_MONTH 0
  + (if (2 <? month) && is_leap year then 1 else 0).

Definition ymd2ord (year month day : Z) : Z :=
  days_before_year year + days_before_month year month + day.

(** [_ord2ymd]. *)
Definition ord2ymd (n : Z) : Z * Z * Z :=
  let n := n - 1 in
  let n400 := n / DI400Y in
  let n := n mod DI400Y in
  let year := n400 * 400 + 1 in
  let n100 := n / DI100Y in
  let n := n mod DI100Y in
  let n4 := n / DI4Y in
  let n := n mod DI4Y in
  let n1 := n / 365 in
  let n := n mod 365 in
  let year := year + n100 * 100 + n4 * 4 + n1 in
  if (n1 =? 4) || (n100 =? 4) then (year - 1, 12, 31)
  else
    let leapyear := (n1 =? 3) && (negb (n4 =? 24) || (n100 =? 3)) in
    let month := Z.shiftr (n + 50) 5 in
    let preceding :=
      nth (Z.to_nat month) DAYS_BEFORE_MONTH 0
      + (if (2 <? month) && leapyear then 1 else 0) in
    if n <? preceding then
      let month := month - 1 in
      let preceding :=
        preceding
        - (nth (Z.to_nat month) DAYS_IN_MONTH 0
           + (if (month =? 2) && leapyear then 1 else 0)) in
      (year, month, n - preceding + 1)
    else (year, month, n - preceding + 1).

(** ["%0*d"]: decimal digits, padded with zeros on the left up to a width. *)
Fixpoint zeros (n : nat) : string :=
  match n with
  | O => ""
  | S n => "0" +:+ zeros n
  end.

Definition zfill (width : nat) (n : Z) : string :=
  let digits := pretty n in
  zeros (width - String.length digits) +:+ digits.

(** [date.isoformat()]. *)
Definition isoformat (d : date) : string :=
  let '(y, m, dd) := ord2ymd d in
  zfill 4 y +:+ "-" +:+ zfill 2 m +:+ "-" +:+ zfill 2 dd.

End PyDatetime.
Export PyDatetime.

(** ** The query builder *)

Definition topic_term (t : string) : string := "topic:" +:+ t.
Definition keyword_term (k : string) : string := k +:+ " in:name,description,readme".

(** A Python list is true when it is not empty; so is a string. *)
Definition list_truthy {A} (l : list A) : bool :=
  match l with
  | [] => false
  | _ :: _ => true
  end.

Definition str_truthy (s : string) : bool :=
  match s with
  | EmptyString => false
  | String _ _ => true
  end.

Definition build_query (topics keywords : list string) : string :=
  let parts : list string := [] in
  let parts := if list_truthy topics then (parts ++ map topic_term topics)%list else parts in
  let parts := if list_truthy keywords then (parts ++ map keyword_term keywords)%list else parts in
  if negb (list_truthy parts) then ""
  else if (length parts =? 1)%nat then nth 0 parts ""
  else "(" +:+ String.concat " OR " parts +:+ ")".

(** ** The remote search API, as [requests] shows it *)

Definition GITHUB_SEARCH_URL : string := "https://api.github.com/search/repositories".

(** A GET request: URL, headers, the two query parameters and the timeout. *)
Record request := Request {
  req_url : string;
  req_headers : gmap string string;
  req_q : string;
  req_per_page : Z;
  req_timeout : Z
}.

(** A response: its status code and its decoded JSON body. *)
Record response := Response {
  status_code : Z;
  json : gmap string Z
}.

(** [Response.ok]: false exactly when [raise_for_status] raises, that is for
    the client and server error codes. *)
Definition response_ok (r : response) : bool :=
  negb ((400 <=? status_code r) && (status_code r <? 600)).

(** [dict.get(key, default)] and [int] on an integer. *)
Definition dict_get (d : gmap string Z) (k : string) (dflt : Z) : Z :=
  match d !! k with
  | Some v => v
  | None => dflt
  end.

Definition py_int (z : Z) : Z := z.

(** ** Effects: exceptions, the remote world and a trace of what was done *)

Inductive exn :=
  | HTTPError (r : response)
  | OverflowError
  | ValueError (msg : string).

Inductive event :=
  | Call (req : request) (resp : response)
  | Print (line : string)
  | Sleep (secs : Q).

Inductive outcome (A : Type) :=
  | Ok (a : A)
  | Raise (e : exn)
  | OutOfFuel.
Arguments Ok {A} a.
Arguments Raise {A} e.
Arguments OutOfFuel {A}.

(** A computation runs from a state of the remote world; it ends with a value
    or an exception, leaves the world in a new state and has emitted events,
    listed in the order they happened. *)
Record result (W A : Type) := Result {
  out : outcome A;
  world : W;
  events : list event
}.
Arguments Result {W A} out world events.
Arguments out {W A} r.
Arguments world {W A} r.
Arguments events {W A} r.

Definition M (W A : Type) : Type := W -> result W A.

Definition ret {W A} (a : A) : M W A := fun w => Result (Ok a) w [].
Definition raise {W A} (e : exn) : M W A := fun w => Result (Raise e) w [].
Definition out_of_fuel {W A} : M W A := fun w => Result OutOfFuel w [].

Definition bind {W A B} (m : M W A) (f : A -> M W B) : M W B :=
  fun w =>
    let r := m w in
    match out r with
    | Ok a =>
        let r' := f a (world r) in
        Result (out r') (world r') (events r ++ events r')
    | Raise e => Result (Raise e) (world r) (events r)
    | OutOfFuel => Result OutOfFuel (world r) (events r)
    end.

Notation "x <- m ;; k" := (bind m (fun x => k))
  (at level 100, m at next level, right associativity).
Notation "m ;;; k" := (bind m (fun _ => k))
  (at level 100, right associativity).

Definition print {W} (line : string) : M W unit :=
  fun w => Result (Ok tt) w [Print line].

(** [time.sleep] refuses a negative duration. *)
Definition time_sleep {W} (secs : Q) : M W unit :=
  fun w =>
    if Qle_bool 0 secs then Result (Ok tt) w [Sleep secs]
    else Result (Raise (ValueError "sleep length must be non-negative")) w [].

(** [datetime + timedelta] raises when the sum leaves the supported years. *)
Definition dt_add {W} (d : datetime) (t : timedelta) : M W datetime :=
  let r := d + t in
  if (dt_min <=? r) && (r <=? dt_max) then ret r else raise OverflowError.

(** [a or b] on optional strings: [a] when it is a non-empty string. *)
Definition py_or (a b : option string) : option string :=
  match a with
  | Some s => if str_truthy s then Some s else b
  | None => b
  end.

(** The parsed command line ([argparse]'s namespace). *)
Record Namespace := {
  arg_start : string;
  arg_end : string;
  arg_topics : list string;
  arg_keywords : list string;
  arg_per_term : bool;
  arg_token : option string;
  arg_exact : bool;
  arg_sleep : Q
}.

Section Program.

(** The state of the remote service and its answer to a request. *)
Context {World : Type}.
Variable remote : request -> World -> response * World.

(** [datetime.strptime(s, format)]: a datetime, or the message of the
    [ValueError] it raises. *)
Variable strptime : string -> string -> string + datetime.

(** [os.environ]. *)
Variable environ : gmap string string.

Definition parse_date (s : string) : string + datetime := strptime s "%Y-%m-%d".

(** [requests.get]: one exchange with the remote service. *)
Definition requests_get (req : request) : M World response :=
  fun w => let '(resp, w') := remote req w in Result (Ok resp) w' [Call req resp].

Definition raise_for_status (r : response) : M World unit :=
  if response_ok r then ret tt else raise (HTTPError r).

Definition github_search_count (query : string) (token : option string)
  : M World (gmap string Z) :=
  let headers : gmap string string := {[ "Accept" := "application/vnd.github+json" ]} in
  let headers :=
    match token with
    | Some t => if str_truthy t then <[ "Authorization" := "token " +:+ t ]> headers else headers
    | None => headers
    end in
  r <- requests_get (Request GITHUB_SEARCH_URL headers query 1 30) ;;
  raise_for_status r ;;;
  ret (json r).

(** The body of [count_range]; its two recursive calls go through [rec]. *)
Definition count_range_body
    (rec : string -> datetime -> datetime -> option string -> bool -> M World Z)
    (query_base : string) (start end_ : datetime)
    (token : option string) (exact : bool) : M World Z :=
  let date_range :=
    "created:" +:+ isoformat (date_of start) +:+ ".." +:+ isoformat (date_of end_) in
  let full_query :=
    if str_truthy query_base then query_base +:+ " " +:+ date_range else date_range in
  resp <- github_search_count full_query token ;;
  let total := py_int (dict_get resp "total_count" 0) in
  if exact && (1000 <=? total) && (start <? end_) then
    mid <- dt_add start (td_div (dt_sub end_ start) 2) ;;
    left <- rec query_base start mid token exact ;;
    right_start <- dt_add mid (timedelta_seconds 1) ;;
    if right_start >? end_ then ret left
    else
      right <- rec query_base right_start end_ token exact ;;
      ret (left + right)
  else ret total.

(** The recursion, with an explicit bound on the depth of the calls. *)
Fixpoint count_range_fuel (fuel : nat) (query_base : string) (start end_ : datetime)
    (token : option string) (exact : bool) : M World Z :=
  match fuel with
  | O => out_of_fuel
  | S fuel => count_range_body (count_range_fuel fuel) query_base start end_ token exact
  end.

(** A depth that the recursion on [start .. end_] cannot exceed: every call
    at least halves the width of its range (see [count_range_fuel_enough] and
    [count_range_fuel_stable]). *)
Definition depth_bound (start end_ : datetime) : nat :=
  S (S (Z.to_nat (Z.log2_up (end_ - start)))).

Definition count_range (query_base : string) (start end_ : datetime)
    (token : option string) (exact : bool) : M World Z :=
  count_range_fuel (depth_bound start end_) query_base start end_ token exact.

(** The loop of the per-term mode; [results] is the dictionary it fills. *)
Fixpoint per_term_loop (args : Namespace) (start end_ : datetime) (token : option string)
    (terms : list string) (results : gmap string Z) : M World (gmap string Z) :=
  match terms with
  | [] => ret results
  | t :: terms =>
      cnt <- count_range t start end_ token (arg_exact args) ;;
      let results := <[ t := cnt ]> results in
      print (t +:+ ": " +:+ pretty cnt) ;;;
      (if negb (Qeq_bool (arg_sleep args) 0) then time_sleep (arg_sleep args) else ret tt) ;;;
      per_term_loop args start end_ token terms results
  end.

(** [sum(results.values())]. *)
Definition sum_values (results : gmap string Z) : Z :=
  map_fold (fun _ v acc => acc + v) 0 results.

(** [run], from the parsed arguments on. *)
Definition run (args : Namespace) : M World Z :=
  match parse_date (arg_start args) with
  | inl e => print ("Invalid date: " +:+ e) ;;; ret 2
  | inr start =>
      match parse_date (arg_end args) with
      | inl e => print ("Invalid date: " +:+ e) ;;; ret 2
      | inr end_ =>
          if start >? end_ then print "Start must be <= end" ;;; ret 2
          else
            let token := py_or (arg_token args) (environ !! "GITHUB_TOKEN") in
            let query_base := build_query (arg_topics args) (arg_keywords args) in
            if negb (str_truthy query_base) then
              print "Provide at least one topic or keyword" ;;; ret 2
            else if arg_per_term args then
              let results : gmap string Z := ∅ in
              let terms : list string := [] in
              let terms := (terms ++ map topic_term (arg_topics args))%list in
              let terms := (terms ++ map keyword_term (arg_keywords args))%list in
              results <- per_term_loop args start end_ token terms results ;;
              let total := sum_values results in
              print ("TOTAL (sum of terms): " +:+ pretty total) ;;;
              ret 0
            else
              total <- count_range query_base start end_ token (arg_exact args) ;;
              print ("TOTAL matching any provided topics/keywords: " +:+ pretty total) ;;;
              ret 0
      end
  end.

End Program.

(** ** Vocabulary of the statements *)

(** The query that [count_range] sends for a range, and the request that
    carries it. *)
Definition date_range_clause (start end_ : datetime) : string :=
  "created:" +:+ isoformat (date_of start) +:+ ".." +:+ isoformat (date_of end_).

Definition full_query (query_base : string) (start end_ : datetime) : string :=
  if str_truthy query_base then query_base +:+ " " +:+ date_range_clause start end_
  else date_range_clause start end_.

Definition auth_headers (token : option string) : gmap string string :=
  match token with
  | Some t =>
      if str_truthy t
      then <[ "Authorization" := "token " +:+ t ]> {[ "Accept" := "application/vnd.github+json" ]}
      else {[ "Accept" := "application/vnd.github+json" ]}
  | None => {[ "Accept" := "application/vnd.github+json" ]}
  end.

Definition search_request (query : string) (token : option string) : request :=
  Request GITHUB_SEARCH_URL (auth_headers token) query 1 30.

Definition range_request (query_base : string) (start end_ : datetime)
    (token : option string) : request :=
  search_request (full_query query_base start end_) token.

(** The count a response reports. *)
Definition total_of (resp : response) : Z := py_int (dict_get (json resp) "total_count" 0).

(** The middle of a range and the start of its right half. *)
Definition midpoint (start end_ : datetime) : datetime :=
  start + td_div (dt_sub end_ start) 2.

Definition right_start_of (start end_ : datetime) : datetime :=
  midpoint start end_ + timedelta_seconds 1.

(** The sub-ranges [count_range] calls itself on. *)
Inductive child (start end_ : datetime) : datetime -> datetime -> Prop :=
  | child_left :
      start < end_ -> child start end_ start (midpoint start end_)
  | child_right :
      start < end_ -> right_start_of start end_ <= end_ ->
      child start end_ (right_start_of start end_) end_.

(** The remote calls among the events of a run. *)
Definition is_call (e : event) : bool :=
  match e with
  | Call _ _ => true
  | _ => false
  end.

Definition calls (evs : list event) : list event := filter (fun e => is_call e = true) evs.

(** A call that the service answered with an error status. *)
Definition failed_call (e : event) : Prop :=
  match e with
  | Call _ resp => response_ok resp = false
  | _ => False
  end.

(** The day-by-day count of a range of dates: the sum of the counts of its
    days, each counted alone. *)
Definition naive_sum {World : Type} (remote : request -> World -> response * World)
    (query_base : string) (first last : date) (token : option string) (w : World) : Z :=
  fold_right
    (fun d acc =>
       match out (count_range remote query_base (midnight d) (midnight d) token true w) with
       | Ok n => n + acc
       | _ => acc
       end)
    0 (map (fun i => first + Z.of_nat i) (seq 0 (Z.to_nat (last - first + 1)))).

(** The terms of a query: those of the topics, then those of the keywords. *)
Definition query_terms (topics keywords : list string) : list string :=
  (map topic_term topics ++ map keyword_term keywords)%list.

(** No call among the events was answered with an error status. *)
Definition no_failed_call (evs : list event) : Prop :=
  Forall (fun ev => ~ failed_call ev) evs.

(** A run stops at the first failed call: either no call failed, or the
    failed call is the last event and its error is what the run raises. *)
Definition fails_fast {W A} (r : result W A) : Prop :=
  no_failed_call (events r)
  \/ exists pre req resp,
       events r = (pre ++ [Call req resp])%list
       /\ no_failed_call pre
       /\ response_ok resp = false
       /\ out r = Raise (HTTPError resp).

(** A result with events put before its own. *)
Definition prepend {W A} (evs : list event) (r : result W A) : result W A :=
  Result (out r) (world r) (evs ++ events r).

(** What [count_range] does once it has decided to split, over the function
    [rec] it calls on the two halves. *)
Definition split_of {World : Type}
    (rec : string -> datetime -> datetime -> option string -> bool -> M World Z)
    (query_base : string) (start end_ : datetime)
    (token : option string) (exact : bool) : M World Z :=
  mid <- dt_add start (td_div (dt_sub end_ start) 2) ;;
  left <- rec query_base start mid token exact ;;
  right_start <- dt_add mid (timedelta_seconds 1) ;;
  if right_start >? end_ then ret left
  else
    right <- rec query_base right_start end_ token exact ;;
    ret (left + right).


Definition sleeps_of (evs : list event) : list Q :=
  flat_map (fun ev => match ev with Sleep secs => [secs] | _ => [] end) evs.

Definition lines_of (evs : list event) : list string :=
  flat_map (fun ev => match ev with Print line => [line] | _ => [] end) evs.

(** An event of a count over [start .. end_]: a request for a range inside
    it, with the same query base and token. *)
Definition range_call (query_base : string) (token : option string)
    (start end_ : datetime) (ev : event) : Prop :=
  exists s e resp,
    ev = Call (range_request query_base s e token) resp
    /\ start <= s /\ s <= e /\ e <= end_.

(** A request, if the event is one, goes to the search URL with the headers
    of the token, one result per page and the timeout of 30 seconds. *)
Definition sent_with (token : option string) (ev : event) : Prop :=
  match ev with
  | Call req _ =>
      req_url req = GITHUB_SEARCH_URL /\ req_headers req = auth_headers token
      /\ req_per_page req = 1 /\ req_timeout req = 30
  | _ => True
  end.


(** ** Stand-ins for the collaborators, to run the program on examples *)

Module Mock.

Definition digit_of (c : ascii) : option Z :=
  let n := Z.of_N (N_of_ascii c) - 48 in
  if (0 <=? n) && (n <=? 9) then Some n else None.

Fixpoint number_of (acc : Z) (s : string) : option Z :=
  match s with
  | EmptyString => Some acc
  | String c s =>
      match digit_of c with
      | Some d => number_of (acc * 10 + d) s
      | None => None
      end
  end.

(** Reads a zero-padded [YYYY-MM-DD] date of the calendar. *)
Definition read_iso_date (s : string) : option date :=
  if negb (String.length s =? 10)%nat then None
  else if negb (String.eqb (String.substring 4 1 s) "-" && String.eqb (String.substring 7 1 s) "-") then None
  else
    match number_of 0 (String.substring 0 4 s), number_of 0 (String.substring 5 2 s),
          number_of 0 (String.substring 8 2 s) with
    | Some y, Some m, Some d =>
        if (1 <=? y) && (1 <=? m) && (m <=? 12) && (1 <=? d) && (d <=? days_in_month y m)
        then Some (ymd2ord y m d) else None
    | _, _, _ => None
    end.

(** A date parser that accepts the zero-padded dates of the format
    [%Y-%m-%d] and nothing else. *)
Definition strptime (s fmt : string) : string + datetime :=
  if String.eqb fmt "%Y-%m-%d" then
    match read_iso_date s with
    | Some d => inr (midnight d)
    | None => inl ("time data does not match format: " +:+ s)
    end
  else inl "unsupported format".

(** The clause [created:A..B] ends a query: reads [A] and [B] back. *)
Definition created_range (q : string) : option (date * date) :=
  let n := String.length q in
  match read_iso_date (String.substring (n - 22) 10 q), read_iso_date (String.substring (n - 10) 10 q) with
  | Some a, Some b => Some (a, b)
  | _, _ => None
  end.

(** A service in a fixed state that answers every query with status 200
    and the same count. *)
Definition constant (n : Z) (req : request) (w : unit) : response * unit :=
  (Response 200 {[ "total_count" := n ]}, w).

(** A service over a fixed set of repositories, [per_day d] of them created
    on day [d]: it reports how many were created in the queried range. *)
Definition created_between (per_day : date -> Z) (a b : date) : Z :=
  fold_right (fun d acc => per_day d + acc) 0 (map (fun i => a + Z.of_nat i) (seq 0 (Z.to_nat (b - a + 1)))).

Definition by_day (per_day : date -> Z) (req : request) (w : unit) : response * unit :=
  match created_range (req_q req) with
  | Some (a, b) => (Response 200 {[ "total_count" := created_between per_day a b ]}, w)
  | None => (Response 422 ∅, w)
  end.

(** A service that answers from a script, one response per request, and
    counts the requests it has served. *)
Definition scripted (script : list response) (req : request) (w : nat) : response * nat :=
  (nth w script (Response 503 ∅), S w).

End Mock.

Example isoformat_2020 : isoformat (ymd2ord 2020 1 1) = "2020-01-01".
Proof. vm_compute. reflexivity. Qed.
Example isoformat_leap : isoformat (ymd2ord 2020 2 29) = "2020-02-29".
Proof. vm_compute. reflexivity. Qed.
Example isoformat_min : isoformat 1 = "0001-01-01".
Proof. vm_compute. reflexivity. Qed.
Example isoformat_max : isoformat max_ordinal = "9999-12-31".
Proof. vm_compute. reflexivity. Qed.
Example build_query_test : build_query ["cli"] ["tool"] = "(topic:cli OR tool in:name,description,readme)".
Proof. reflexivity. Qed.

(** ** Arithmetic of the midpoint *)

Lemma td_div_2_cases (d : timedelta) :
  td_div d 2 = d / 2 \/ (td_div d 2 = d / 2 + 1 /\ d mod 2 = 1 /\ (d / 2) mod 2 = 1).
Proof.
  unfold td_div, divide_and_round. cbn zeta.
  replace (0 <? 2) with true by reflexivity.
  destruct (2 <? d mod 2 * 2) eqn:Hgt.
  - apply Z.ltb_lt in Hgt. pose proof (Z.mod_pos_bound d 2). lia.
  - cbn [orb].
    destruct (d mod 2 * 2 =? 2) eqn:Heq; cbn [andb]; [|now left].
    destruct (d / 2 mod 2 =? 1) eqn:Hodd; [|now left].
    right. apply Z.eqb_eq in Heq, Hodd. lia.
Qed.

Lemma td_div_2_bounds (d : timedelta) :
  0 < d -> 0 <= td_div d 2 /\ td_div d 2 < d /\ 2 * td_div d 2 <= d + 1 /\ d <= 2 * td_div d 2 + 1.
Proof.
  intros Hd.
  pose proof (Z.div_mod d 2 ltac:(lia)) as Hdm.
  pose proof (Z.mod_pos_bound d 2 ltac:(lia)) as Hm.
  destruct (td_div_2_cases d) as [-> | (-> & Hr & Hq)].
  - lia.
  - pose proof (Z.div_mod (d / 2) 2 ltac:(lia)) as Hdm2.
    pose proof (Z.div_pos d 2 ltac:(lia) ltac:(lia)).
    assert (d / 2 <> 0) by (intros E; rewrite E in Hq; discriminate).
    lia.
Qed.

Ltac unfold_range :=
  unfold right_start_of, midpoint, dt_sub, timedelta_seconds, us_per_second in *.

(** Every recursive call is on a strictly narrower range inside the caller's. *)
Lemma child_shrinks (start end_ s e : datetime) :
  child start end_ s e ->
  start <= s /\ s <= e /\ e <= end_ /\ e - s < end_ - start.
Proof.
  intros [Hlt | Hlt Hrs]; unfold_range;
    pose proof (td_div_2_bounds (end_ - start) ltac:(lia)); lia.
Qed.

Lemma child_width (start end_ s e : datetime) (k : nat) :
  child start end_ s e -> end_ - start <= 2 ^ Z.of_nat (S k) -> e - s <= 2 ^ Z.of_nat k.
Proof.
  intros Hc Hw.
  replace (Z.of_nat (S k)) with (Z.of_nat k + 1) in Hw by lia.
  rewrite Z.pow_add_r, Z.pow_1_r in Hw by lia.
  destruct Hc as [Hlt | Hlt Hrs]; unfold_range;
    pose proof (td_div_2_bounds (end_ - start) ltac:(lia)); lia.
Qed.

Lemma child_width_0 (start end_ s e : datetime) :
  child start end_ s e -> end_ - start <= 1 -> e - s <= 0.
Proof.
  intros Hc Hw.
  destruct Hc as [Hlt | Hlt Hrs]; unfold_range;
    pose proof (td_div_2_bounds (end_ - start) ltac:(lia)); lia.
Qed.


(** ** The effect layer *)

Lemma prepend_nil {W A} (r : result W A) : prepend [] r = r.
Proof. now destruct r. Qed.


Lemma bind_run {W A B} (m : M W A) (f : A -> M W B) (w : W) :
  bind m f w =
    match out (m w) with
    | Ok a => prepend (events (m w)) (f a (world (m w)))
    | Raise e => Result (Raise e) (world (m w)) (events (m w))
    | OutOfFuel => Result OutOfFuel (world (m w)) (events (m w))
    end.
Proof. reflexivity. Qed.

Lemma dt_add_run {W} (d : datetime) (t : timedelta) (w : W) :
  dt_min <= d + t <= dt_max -> dt_add d t w = Result (Ok (d + t)) w [].
Proof.
  intros [H1 H2]. unfold dt_add.
  apply Z.leb_le in H1, H2. now rewrite H1, H2.
Qed.

Lemma dt_add_cases {W} (d : datetime) (t : timedelta) (w : W) :
  @dt_add W d t w = Result (Ok (d + t)) w [] \/ @dt_add W d t w = Result (Raise OverflowError) w [].
Proof. unfold dt_add. destruct (_ && _); [now left | now right]. Qed.

Section Properties.

Context {World : Type}.
Variable remote : request -> World -> response * World.

Abbreviation rec_fun := (string -> datetime -> datetime -> option string -> bool -> M World Z).

Lemma github_search_count_run (query : string) (token : option string) (w : World) :
  github_search_count remote query token w =
    let req := search_request query token in
    let resp := fst (remote req w) in
    if response_ok resp
    then Result (Ok (json resp)) (snd (remote req w)) [Call req resp]
    else Result (Raise (HTTPError resp)) (snd (remote req w)) [Call req resp].
Proof.
  unfold github_search_count, search_request, auth_headers.
  rewrite bind_run. unfold requests_get.
  destruct token as [t|]; [destruct (str_truthy t)|];
    destruct (remote _ w) as [resp w1]; cbn;
    unfold raise_for_status; destruct (response_ok resp); reflexivity.
Qed.

(** One call of [count_range]: a single request, then the reported total or
    the split. *)
Lemma count_range_body_run (rec : rec_fun) (qb : string) (s e : datetime)
    (tok : option string) (exact : bool) (w : World) :
  count_range_body remote rec qb s e tok exact w =
    let req := range_request qb s e tok in
    let resp := fst (remote req w) in
    let w1 := snd (remote req w) in
    if response_ok resp then
      if exact && (1000 <=? total_of resp) && (s <? e)
      then prepend [Call req resp] (split_of rec qb s e tok exact w1)
      else Result (Ok (total_of resp)) w1 [Call req resp]
    else Result (Raise (HTTPError resp)) w1 [Call req resp].
Proof.
  unfold count_range_body. rewrite bind_run, github_search_count_run.
  fold (date_range_clause s e). fold (full_query qb s e). fold (range_request qb s e tok).
  cbn zeta. destruct (response_ok _); [|reflexivity].
  cbn [out world events]. fold (total_of (fst (remote (range_request qb s e tok) w))).
  destruct (exact && _ && _); reflexivity.
Qed.

(** The split, step by step. *)
Lemma split_of_run (rec : rec_fun) (qb : string) (s e : datetime)
    (tok : option string) (exact : bool) (w : World) :
  dt_min <= midpoint s e <= dt_max ->
  split_of rec qb s e tok exact w =
    let rl := rec qb s (midpoint s e) tok exact w in
    match out rl with
    | Ok l =>
        if (dt_min <=? right_start_of s e) && (right_start_of s e <=? dt_max) then
          if right_start_of s e >? e then Result (Ok l) (world rl) (events rl)
          else
            let rr := rec qb (right_start_of s e) e tok exact (world rl) in
            match out rr with
            | Ok r => Result (Ok (l + r)) (world rr) (events rl ++ events rr)
            | Raise x => Result (Raise x) (world rr) (events rl ++ events rr)
            | OutOfFuel => Result OutOfFuel (world rr) (events rl ++ events rr)
            end
        else Result (Raise OverflowError) (world rl) (events rl)
    | Raise x => Result (Raise x) (world rl) (events rl)
    | OutOfFuel => Result OutOfFuel (world rl) (events rl)
    end.
Proof.
  intros Hmid. unfold split_of. rewrite bind_run.
  fold (midpoint s e). rewrite (dt_add_run _ _ w Hmid). cbn [out world events].
  rewrite prepend_nil, bind_run. cbn zeta.
  change (s + td_div (dt_sub e s) 2) with (midpoint s e).
  destruct (rec qb s (midpoint s e) tok exact w) as [[l|x|] wl evl]; cbn [out world events];
    try reflexivity.
  rewrite bind_run. unfold right_start_of, dt_add, prepend.
  destruct (_ && _); cbn; [|now rewrite app_nil_r].
  destruct (midpoint s e + timedelta_seconds 1 >? e); cbn; [now rewrite app_nil_r|].
  rewrite bind_run.
  destruct (rec qb (midpoint s e + timedelta_seconds 1) e tok exact wl) as [[r|x|] wr evr]; cbn;
    now rewrite ?app_nil_r.
Qed.

Lemma split_of_overflow (rec : rec_fun) (qb : string) (s e : datetime)
    (tok : option string) (exact : bool) (w : World) :
  ~ (dt_min <= midpoint s e <= dt_max) ->
  split_of rec qb s e tok exact w = Result (Raise OverflowError) w [].
Proof.
  intros Hmid. unfold split_of. rewrite bind_run. fold (midpoint s e).
  unfold dt_add. fold (midpoint s e).
  destruct ((dt_min <=? midpoint s e) && (midpoint s e <=? dt_max)) eqn:E; [|reflexivity].
  apply andb_true_iff in E as [H1 H2]. apply Z.leb_le in H1, H2. lia.
Qed.

(** The split depends on [rec] through the two halves only. *)
Lemma split_of_ext (rec1 rec2 : rec_fun) (qb : string) (s e : datetime)
    (tok : option string) (exact : bool) (w : World) :
  s < e ->
  (forall s' e' w', child s e s' e' ->
     out (rec1 qb s' e' tok exact w') <> OutOfFuel ->
     rec2 qb s' e' tok exact w' = rec1 qb s' e' tok exact w') ->
  out (split_of rec1 qb s e tok exact w) <> OutOfFuel ->
  split_of rec2 qb s e tok exact w = split_of rec1 qb s e tok exact w.
Proof.
  intros Hlt Hagree.
  destruct (decide (dt_min <= midpoint s e <= dt_max)) as [Hmid|Hmid];
    [|now rewrite !split_of_overflow].
  rewrite !split_of_run by assumption. cbn zeta. intros Hfuel.
  assert (Hl : rec2 qb s (midpoint s e) tok exact w = rec1 qb s (midpoint s e) tok exact w).
  { apply Hagree; [now constructor|].
    destruct (out (rec1 qb s (midpoint s e) tok exact w)); cbn in *; congruence. }
  rewrite Hl.
  destruct (out (rec1 qb s (midpoint s e) tok exact w)) as [l|x|]; try reflexivity.
  destruct (_ && _); [|reflexivity].
  destruct (right_start_of s e >? e) eqn:Hgt; [reflexivity|].
  assert (Hr : forall w', out (rec1 qb (right_start_of s e) e tok exact w') <> OutOfFuel ->
                 rec2 qb (right_start_of s e) e tok exact w'
                 = rec1 qb (right_start_of s e) e tok exact w').
  { intros w'. apply Hagree. constructor; [assumption|].
    rewrite Z.gtb_ltb in Hgt. apply Z.ltb_ge in Hgt. exact Hgt. }
  rewrite Hr; [reflexivity|].
  destruct (out (rec1 qb (right_start_of s e) e tok exact _)); cbn in *; congruence.
Qed.

Lemma split_of_fuel (rec : rec_fun) (qb : string) (s e : datetime)
    (tok : option string) (exact : bool) (w : World) :
  s < e ->
  (forall s' e' w', child s e s' e' -> out (rec qb s' e' tok exact w') <> OutOfFuel) ->
  out (split_of rec qb s e tok exact w) <> OutOfFuel.
Proof.
  intros Hlt Hrec.
  destruct (decide (dt_min <= midpoint s e <= dt_max)) as [Hmid|Hmid];
    [|now rewrite split_of_overflow].
  rewrite split_of_run by assumption. cbn zeta.
  pose proof (Hrec s (midpoint s e) w (child_left _ _ Hlt)) as Hl.
  destruct (out (rec qb s (midpoint s e) tok exact w)) as [l|x|]; cbn; try congruence.
  destruct (_ && _); cbn; [|congruence].
  destruct (right_start_of s e >? e) eqn:Hgt; cbn; [congruence|].
  rewrite Z.gtb_ltb in Hgt. apply Z.ltb_ge in Hgt.
  pose proof (Hrec _ _ (world (rec qb s (midpoint s e) tok exact w))
                (child_right _ _ Hlt Hgt)) as Hr.
  destruct (out (rec qb (right_start_of s e) e tok exact _)); cbn; congruence.
Qed.

Lemma count_range_fuel_S (n : nat) (qb : string) (s e : datetime)
    (tok : option string) (exact : bool) :
  count_range_fuel remote (S n) qb s e tok exact
  = count_range_body remote (count_range_fuel remote n) qb s e tok exact.
Proof. reflexivity. Qed.

Lemma split_condition (exact : bool) (total : Z) (s e : datetime) :
  exact && (1000 <=? total) && (s <? e) = true <-> exact = true /\ 1000 <= total /\ s < e.
Proof. rewrite !andb_true_iff, Z.leb_le, Z.ltb_lt. tauto. Qed.

Lemma count_range_body_ext (rec1 rec2 : rec_fun) (qb : string) (s e : datetime)
    (tok : option string) (exact : bool) (w : World) :
  (forall s' e' w', child s e s' e' ->
     out (rec1 qb s' e' tok exact w') <> OutOfFuel ->
     rec2 qb s' e' tok exact w' = rec1 qb s' e' tok exact w') ->
  out (count_range_body remote rec1 qb s e tok exact w) <> OutOfFuel ->
  count_range_body remote rec2 qb s e tok exact w
  = count_range_body remote rec1 qb s e tok exact w.
Proof.
  intros Hagree. rewrite !count_range_body_run. cbn zeta.
  destruct (response_ok _); [|reflexivity].
  destruct (exact && _ && _) eqn:C; [|reflexivity].
  apply split_condition in C as (_ & _ & Hlt).
  unfold prepend at 1. cbn [out]. intros Hfuel.
  now rewrite (split_of_ext rec1 rec2).
Qed.

Lemma count_range_body_fuel (rec : rec_fun) (qb : string) (s e : datetime)
    (tok : option string) (exact : bool) (w : World) :
  (forall s' e' w', child s e s' e' -> out (rec qb s' e' tok exact w') <> OutOfFuel) ->
  out (count_range_body remote rec qb s e tok exact w) <> OutOfFuel.
Proof.
  intros Hrec. rewrite count_range_body_run. cbn zeta.
  destruct (response_ok _); [|cbn; congruence].
  destruct (exact && _ && _) eqn:C; [|cbn; congruence].
  apply split_condition in C as (_ & _ & Hlt).
  unfold prepend. cbn [out]. now apply split_of_fuel.
Qed.

(** Fuel for the depth of the halving is enough. *)
Lemma count_range_fuel_enough (n : nat) :
  forall (qb : string) (s e : datetime) (tok : option string) (exact : bool) (w : World),
    (e - s <= 0 /\ (1 <= n)%nat) \/ (exists k : nat, e - s <= 2 ^ Z.of_nat k /\ (k + 2 <= n)%nat) ->
    out (count_range_fuel remote n qb s e tok exact w) <> OutOfFuel.
Proof.
  induction n as [|n IH]; intros qb s e tok exact w Hn.
  - destruct Hn as [[_ H] | (k & _ & H)]; lia.
  - rewrite count_range_fuel_S. apply count_range_body_fuel.
    intros s' e' w' Hc. apply IH.
    destruct Hn as [[Hw _] | (k & Hw & Hk)].
    + destruct Hc; lia.
    + destruct k as [|k].
      * left. split; [|lia]. apply (child_width_0 _ _ _ _ Hc). exact Hw.
      * right. exists k. split; [|lia]. now apply (child_width s e).
Qed.

(** More fuel does not change a result that was reached. *)
Lemma count_range_fuel_mono (n : nat) :
  forall (m : nat) (qb : string) (s e : datetime) (tok : option string) (exact : bool)
         (w : World),
    (n <= m)%nat ->
    out (count_range_fuel remote n qb s e tok exact w) <> OutOfFuel ->
    count_range_fuel remote m qb s e tok exact w = count_range_fuel remote n qb s e tok exact w.
Proof.
  induction n as [|n IH]; intros m qb s e tok exact w Hle Hfuel.
  - now contradiction Hfuel.
  - destruct m as [|m]; [lia|].
    rewrite !count_range_fuel_S in *.
    apply count_range_body_ext; [|assumption].
    intros s' e' w' _. apply IH. lia.
Qed.

Lemma depth_bound_enough (s e : datetime) :
  (e - s <= 0 /\ (1 <= depth_bound s e)%nat)
  \/ (exists k : nat, e - s <= 2 ^ Z.of_nat k /\ (k + 2 <= depth_bound s e)%nat).
Proof.
  unfold depth_bound.
  destruct (Z_le_gt_dec (e - s) 1) as [Hle | Hgt].
  - right. exists 0%nat. split; [exact Hle | lia].
  - right. exists (Z.to_nat (Z.log2_up (e - s))). split; [|lia].
    rewrite Z2Nat.id by apply Z.log2_up_nonneg.
    apply Z.log2_up_spec. lia.
Qed.

Lemma depth_bound_child (s e s' e' : datetime) :
  child s e s' e' -> (depth_bound s' e' <= depth_bound s e)%nat.
Proof.
  intros Hc. apply child_shrinks in Hc. unfold depth_bound.
  assert (Z.log2_up (e' - s') <= Z.log2_up (e - s)) by (apply Z.log2_up_le_mono; lia).
  lia.
Qed.

Lemma count_range_fuel_stable (n : nat) (qb : string) (s e : datetime)
    (tok : option string) (exact : bool) (w : World) :
  (depth_bound s e <= n)%nat ->
  count_range_fuel remote n qb s e tok exact w = count_range remote qb s e tok exact w.
Proof.
  intros Hn. unfold count_range. apply count_range_fuel_mono; [exact Hn|].
  apply count_range_fuel_enough, depth_bound_enough.
Qed.

(** [count_range] satisfies the equation of its source text. *)
Lemma count_range_unfold (qb : string) (s e : datetime) (tok : option string) (exact : bool)
    (w : World) :
  count_range remote qb s e tok exact w
  = count_range_body remote (count_range remote) qb s e tok exact w.
Proof.
  rewrite <- (count_range_fuel_stable (S (depth_bound s e))) by lia.
  rewrite count_range_fuel_S. symmetry. apply count_range_body_ext.
  - intros s' e' w' Hc _. symmetry. apply count_range_fuel_stable.
    now apply (depth_bound_child s e).
  - rewrite <- count_range_fuel_S.
    apply count_range_fuel_enough. 
    pose proof (depth_bound_enough s e) as [[H1 H2] | (k & H1 & H2)]; [left | right; exists k]; lia.
Qed.

(** ** One call of [count_range] *)

Lemma remote_eta (req : request) (w w1 : World) (resp : response) :
  remote req w = (resp, w1) -> fst (remote req w) = resp /\ snd (remote req w) = w1.
Proof. now intros ->. Qed.

Lemma count_range_no_split (qb : string) (s e : datetime) (tok : option string)
    (exact : bool) (w w1 : World) (resp : response) :
  remote (range_request qb s e tok) w = (resp, w1) ->
  response_ok resp = true ->
  exact && (1000 <=? total_of resp) && (s <? e) = false ->
  count_range remote qb s e tok exact w
  = Result (Ok (total_of resp)) w1 [Call (range_request qb s e tok) resp].
Proof.
  intros Hr Hok Hc. apply remote_eta in Hr as [H1 H2].
  rewrite count_range_unfold, count_range_body_run. cbn zeta.
  now rewrite H1, H2, Hok, Hc.
Qed.

Lemma count_range_split (qb : string) (s e : datetime) (tok : option string)
    (exact : bool) (w w1 : World) (resp : response) :
  remote (range_request qb s e tok) w = (resp, w1) ->
  response_ok resp = true ->
  exact && (1000 <=? total_of resp) && (s <? e) = true ->
  count_range remote qb s e tok exact w
  = prepend [Call (range_request qb s e tok) resp]
      (split_of (count_range remote) qb s e tok exact w1).
Proof.
  intros Hr Hok Hc. apply remote_eta in Hr as [H1 H2].
  rewrite count_range_unfold, count_range_body_run. cbn zeta.
  now rewrite H1, H2, Hok, Hc.
Qed.

Lemma count_range_http_error (qb : string) (s e : datetime) (tok : option string)
    (exact : bool) (w w1 : World) (resp : response) :
  remote (range_request qb s e tok) w = (resp, w1) ->
  response_ok resp = false ->
  count_range remote qb s e tok exact w
  = Result (Raise (HTTPError resp)) w1 [Call (range_request qb s e tok) resp].
Proof.
  intros Hr Hok. apply remote_eta in Hr as [H1 H2].
  rewrite count_range_unfold, count_range_body_run. cbn zeta.
  now rewrite H1, H2, Hok.
Qed.

(** Every call of [count_range] starts with the request for its own range. *)
Lemma count_range_first_call (qb : string) (s e : datetime) (tok : option string)
    (exact : bool) (w : World) :
  exists rest,
    events (count_range remote qb s e tok exact w)
    = Call (range_request qb s e tok) (fst (remote (range_request qb s e tok) w)) :: rest.
Proof.
  rewrite count_range_unfold, count_range_body_run. cbn zeta.
  destruct (response_ok _); [|now exists []].
  destruct (exact && _ && _); [|now exists []].
  unfold prepend. cbn. eauto.
Qed.

Lemma split_of_events (rec : rec_fun) (qb : string) (s e : datetime)
    (tok : option string) (exact : bool) (w : World) :
  dt_min <= midpoint s e <= dt_max ->
  exists rest,
    events (split_of rec qb s e tok exact w)
    = (events (rec qb s (midpoint s e) tok exact w) ++ rest)%list.
Proof.
  intros Hmid. rewrite split_of_run by assumption. cbn zeta.
  destruct (out (rec qb s (midpoint s e) tok exact w)); cbn;
    try (exists []; now rewrite app_nil_r).
  destruct (_ && _); cbn; [|exists []; now rewrite app_nil_r].
  destruct (_ >? _); cbn; [exists []; now rewrite app_nil_r|].
  destruct (out (rec qb (right_start_of s e) e tok exact _)); cbn; eauto.
Qed.

Lemma midpoint_between (s e : datetime) : s < e -> s <= midpoint s e < e.
Proof.
  intros Hlt. unfold midpoint, dt_sub.
  pose proof (td_div_2_bounds (e - s) ltac:(lia)). lia.
Qed.

(** ** The range counter *)

(** Induction over the ranges along the recursion of [count_range]. *)
Lemma range_ind (P : datetime -> datetime -> Prop) :
  (forall s e, (forall s' e', child s e s' e' -> P s' e') -> P s e) ->
  forall s e, P s e.
Proof.
  intros Hstep s e.
  remember (Z.to_nat (e - s)) as n eqn:Hn.
  revert s e Hn. induction n as [n IH] using lt_wf_ind. intros s e Hn.
  apply Hstep. intros s' e' Hc.
  apply (IH (Z.to_nat (e' - s'))); [|reflexivity].
  apply child_shrinks in Hc. lia.
Qed.

(** The first instant of a calendar date, and the second after it, are
    datetimes. *)
Lemma midnight_in_range (d : date) :
  min_ordinal <= d <= max_ordinal ->
  dt_min <= midnight d /\ midnight d + timedelta_seconds 1 <= dt_max.
Proof.
  unfold min_ordinal, max_ordinal, dt_min, dt_max, midnight, timedelta_seconds,
    min_ordinal, max_ordinal, us_per_day, us_per_second.
  lia.
Qed.

(** The recursion is shallow: the widest range of supported datetimes is
    below [2 ^ 59] microseconds. *)
Lemma depth_bound_small (s e : datetime) :
  dt_min <= s -> e + timedelta_seconds 1 <= dt_max -> (depth_bound s e <= 61)%nat.
Proof.
  intros Hs He. unfold depth_bound.
  assert (Hw : e - s <= 2 ^ 59).
  { assert (dt_max - dt_min <= 2 ^ 59) by now vm_compute.
    assert (0 <= timedelta_seconds 1) by now vm_compute. lia. }
  assert (Z.log2_up (e - s) <= 59).
  { etransitivity; [apply Z.log2_up_le_mono, Hw|]. now vm_compute. }
  pose proof (Z.log2_up_nonneg (e - s)). lia.
Qed.

(** When the service answers every request with a success status, and the
    range lies in the years [datetime] supports, [count_range] returns. *)
Lemma count_range_returns (qb : string) (tok : option string) (exact : bool) :
  (forall req w, response_ok (fst (remote req w)) = true) ->
  forall s e w,
    dt_min <= s -> e + timedelta_seconds 1 <= dt_max ->
    exists n, out (count_range remote qb s e tok exact w) = Ok n.
Proof.
  intros Hok s e. induction s, e using range_ind. rename H into IH.
  intros w Hs He.
  destruct (remote (range_request qb s e tok) w) as [resp w1] eqn:Hr.
  assert (Hresp : response_ok resp = true).
  { specialize (Hok (range_request qb s e tok) w). now rewrite Hr in Hok. }
  destruct (exact && (1000 <=? total_of resp) && (s <? e)) eqn:C.
  - rewrite (count_range_split _ _ _ _ _ _ _ _ Hr Hresp C). unfold prepend. cbn [out].
    apply split_condition in C as (_ & _ & Hlt).
    pose proof (midpoint_between s e Hlt) as Hm.
    assert (Hsec : timedelta_seconds 1 = 1000000) by reflexivity.
    rewrite split_of_run by lia. cbn zeta.
    destruct (IH s (midpoint s e) (child_left _ _ Hlt) w1) as [l Hl]; [lia | lia |].
    rewrite Hl.
    replace ((dt_min <=? right_start_of s e) && (right_start_of s e <=? dt_max)) with true
      by (symmetry; apply andb_true_iff; rewrite !Z.leb_le; unfold right_start_of; lia).
    destruct (right_start_of s e >? e) eqn:Hgt; [now exists l|].
    rewrite Z.gtb_ltb in Hgt. apply Z.ltb_ge in Hgt.
    destruct (IH _ _ (child_right _ _ Hlt Hgt)
                (world (count_range remote qb s (midpoint s e) tok exact w1))) as [r Hrr];
      [unfold right_start_of; lia | lia |].
    rewrite Hrr. now exists (l + r).
  - rewrite (count_range_no_split _ _ _ _ _ _ _ _ Hr Hresp C). now exists (total_of resp).
Qed.

(** C2. In exact mode [count_range] terminates, whatever the service answers:
    the depth it is given, at most 61 nested calls, is never used up, and any
    larger depth yields the same result. When the service never answers with an error status (for
    instance with [total_count] 1000 for every query) it returns an integer.
    Each recursive call is on a strictly narrower range inside the caller's.
    When [start = end] a single request is made and its total is returned. *)
Theorem count_range_terminates (qb : string) (s e : datetime) (tok : option string)
    (w : World) :
  s <= e ->
  dt_min <= s -> e + timedelta_seconds 1 <= dt_max ->
  out (count_range remote qb s e tok true w) <> OutOfFuel
  /\ (depth_bound s e <= 61)%nat
  /\ (forall n, (depth_bound s e <= n)%nat ->
        count_range_fuel remote n qb s e tok true w = count_range remote qb s e tok true w)
  /\ ((forall req w', response_ok (fst (remote req w')) = true) ->
        exists n, out (count_range remote qb s e tok true w) = Ok n)
  /\ (forall s' e', child s e s' e' ->
        s <= s' /\ s' <= e' /\ e' <= e /\ e' - s' < e - s)
  /\ (s = e ->
        forall resp w1,
          remote (range_request qb s e tok) w = (resp, w1) ->
          response_ok resp = true ->
          count_range remote qb s e tok true w
          = Result (Ok (total_of resp)) w1 [Call (range_request qb s e tok) resp]).
Proof.
  intros Hle Hs He. repeat split.
  - apply count_range_fuel_enough, depth_bound_enough.
  - now apply depth_bound_small.
  - intros n Hn. now apply count_range_fuel_stable.
  - intros Hok. now apply count_range_returns.
  - now apply child_shrinks in H.
  - now apply child_shrinks in H.
  - now apply child_shrinks in H.
  - now apply child_shrinks in H.
  - intros -> resp w1 Hr Hok. apply count_range_no_split; try assumption.
    rewrite Z.ltb_irrefl. now rewrite andb_false_r.
Qed.

(** C3, amended. After its request, [count_range] returns the reported total
    with no further request when [exact] is false, or the total is below
    1000, or [start] is not before [end] as datetimes; otherwise, that is in
    exact mode with a total of at least 1000 and [start < end], it splits:
    its next request is the one for the left half [start .. mid]. *)
Theorem count_range_split_decision (qb : string) (s e : datetime) (tok : option string)
    (exact : bool) (w w1 : World) (resp : response) :
  remote (range_request qb s e tok) w = (resp, w1) ->
  response_ok resp = true ->
  (exact = false \/ total_of resp < 1000 \/ e <= s ->
     count_range remote qb s e tok exact w
     = Result (Ok (total_of resp)) w1 [Call (range_request qb s e tok) resp])
  /\ (exact = true -> 1000 <= total_of resp -> s < e ->
      dt_min <= s -> e <= dt_max ->
      exists resp' rest,
        events (count_range remote qb s e tok exact w)
        = Call (range_request qb s e tok) resp
          :: Call (range_request qb s (midpoint s e) tok) resp' :: rest).
Proof.
  intros Hr Hok. split.
  - intros Hcase. apply count_range_no_split; try assumption.
    apply not_true_is_false. rewrite split_condition.
    intros (Hex & Htot & Hlt). destruct Hcase as [Hf | [Hlow | Hge]]; [congruence | lia | lia].
  - intros Hex Htot Hlt Hs He.
    rewrite (count_range_split _ _ _ _ _ _ _ _ Hr Hok) by now apply split_condition.
    pose proof (midpoint_between s e Hlt) as Hm.
    destruct (split_of_events (count_range remote) qb s e tok exact w1) as [rest Hrest]; [lia|].
    destruct (count_range_first_call qb s (midpoint s e) tok exact w1) as [rest' Hfirst].
    unfold prepend. cbn [events]. rewrite Hrest, Hfirst. cbn. eauto.
Qed.

(** C4. When [count_range] splits in exact mode, the left recursion is on
    [start .. mid] with [mid = start + (end - start) / 2], run after the first
    request; with [right_start = mid + 1 second], the result is the left count
    alone when [right_start > end], and otherwise the left count plus the
    count of the recursion on [right_start .. end], run after the left one. *)
Theorem count_range_split_result (qb : string) (s e : datetime) (tok : option string)
    (w w1 : World) (resp : response) :
  remote (range_request qb s e tok) w = (resp, w1) ->
  response_ok resp = true ->
  1000 <= total_of resp -> s < e ->
  dt_min <= s -> e + timedelta_seconds 1 <= dt_max ->
  let mid := s + td_div (dt_sub e s) 2 in
  let right_start := mid + timedelta_seconds 1 in
  let rl := count_range remote qb s mid tok true w1 in
  forall lft, out rl = Ok lft ->
    (right_start > e ->
       count_range remote qb s e tok true w
       = Result (Ok lft) (world rl) (Call (range_request qb s e tok) resp :: events rl))
    /\ (right_start <= e ->
        let rr := count_range remote qb right_start e tok true (world rl) in
        forall rgt, out rr = Ok rgt ->
          count_range remote qb s e tok true w
          = Result (Ok (lft + rgt)) (world rr)
              (Call (range_request qb s e tok) resp :: events rl ++ events rr)).
Proof.
  intros Hr Hok Htot Hlt Hs He mid right_start rl lft Hl.
  assert (Hsec : timedelta_seconds 1 = 1000000) by reflexivity.
  pose proof (midpoint_between s e Hlt) as Hm.
  rewrite (count_range_split _ _ _ _ _ _ _ _ Hr Hok) by now apply split_condition.
  rewrite split_of_run by lia. cbn zeta.
  change (midpoint s e) with mid. change (right_start_of s e) with right_start.
  fold rl. rewrite Hl.
  replace ((dt_min <=? right_start) && (right_start <=? dt_max)) with true
    by (symmetry; apply andb_true_iff; rewrite !Z.leb_le;
        subst right_start mid; unfold midpoint in Hm; lia).
  split.
  - intros Hgt. apply Z.gt_lt, Z.ltb_lt in Hgt. rewrite Z.gtb_ltb, Hgt. reflexivity.
  - intros Hge rgt Hrr. apply Z.ltb_ge in Hge. rewrite Z.gtb_ltb, Hge, Hrr. reflexivity.
Qed.

(** C5. With [exact] false, [count_range] makes exactly one request, and when
    it is answered with a success status and a [total_count], that count is
    returned as it is, whatever its value. *)
Theorem count_range_inexact_single_call (qb : string) (s e : datetime)
    (tok : option string) (w w1 : World) (resp : response) :
  remote (range_request qb s e tok) w = (resp, w1) ->
  events (count_range remote qb s e tok false w) = [Call (range_request qb s e tok) resp]
  /\ world (count_range remote qb s e tok false w) = w1
  /\ (response_ok resp = true ->
      forall n, json resp !! "total_count" = Some n ->
        out (count_range remote qb s e tok false w) = Ok n).
Proof.
  intros Hr. destruct (response_ok resp) eqn:Hok.
  - rewrite (count_range_no_split _ _ _ _ _ _ _ _ Hr Hok) by reflexivity.
    repeat split. intros _ n Hn. cbn. unfold total_of, py_int, dict_get. now rewrite Hn.
  - rewrite (count_range_http_error _ _ _ _ _ _ _ _ Hr Hok). repeat split. discriminate.
Qed.

(** C9. A response with a success status whose JSON object has no
    [total_count] counts for zero: [count_range] returns 0 after its single
    request, in either mode. *)
Theorem count_range_missing_total_count (qb : string) (s e : datetime)
    (tok : option string) (exact : bool) (w w1 : World) (resp : response) :
  remote (range_request qb s e tok) w = (resp, w1) ->
  response_ok resp = true ->
  json resp !! "total_count" = None ->
  count_range remote qb s e tok exact w
  = Result (Ok 0) w1 [Call (range_request qb s e tok) resp].
Proof.
  intros Hr Hok Hnone.
  assert (Htot : total_of resp = 0) by (unfold total_of, py_int, dict_get; now rewrite Hnone).
  rewrite (count_range_no_split _ _ _ _ _ _ _ _ Hr Hok).
  - now rewrite Htot.
  - rewrite Htot. now rewrite andb_false_r.
Qed.

End Properties.

(** ** The query builder *)

Lemma append_cons (a : ascii) (s t : string) : String a s +:+ t = String a (s +:+ t).
Proof. reflexivity. Qed.

Lemma append_nil_r (s : string) : s +:+ "" = s.
Proof. induction s as [|a s IH]; [reflexivity|]. now rewrite append_cons, IH. Qed.

Lemma append_assoc (s t u : string) : (s +:+ t) +:+ u = s +:+ (t +:+ u).
Proof. induction s as [|a s IH]; [reflexivity|]. now rewrite !append_cons, IH. Qed.

Lemma concat_cons (sep x y : string) (l : list string) :
  String.concat sep (x :: y :: l) = x +:+ sep +:+ String.concat sep (y :: l).
Proof. reflexivity. Qed.

Lemma concat_elem (sep : string) (l : list string) :
  forall (j : nat) (y : string),
    l !! j = Some y -> exists a c, String.concat sep l = a +:+ y +:+ c.
Proof.
  induction l as [|z l IH]; intros j y Hj; [discriminate|].
  destruct j as [|j].
  - injection Hj as ->. destruct l as [|z' l].
    + exists "", "". cbn. now rewrite append_nil_r.
    + exists "", (sep +:+ String.concat sep (z' :: l)). now rewrite concat_cons.
  - cbn in Hj. destruct l as [|z' l]; [discriminate|].
    destruct (IH j y Hj) as (a & c & Heq).
    exists (z +:+ sep +:+ a), c. rewrite concat_cons, Heq. now rewrite !append_assoc.
Qed.

Lemma concat_order (sep : string) (l : list string) :
  forall (i j : nat) (x y : string),
    l !! i = Some x -> l !! j = Some y -> (i < j)%nat ->
    exists a b c, String.concat sep l = a +:+ x +:+ b +:+ y +:+ c.
Proof.
  induction l as [|z l IH]; intros i j x y Hi Hj Hlt; [discriminate|].
  destruct j as [|j]; [lia|]. cbn in Hj.
  destruct l as [|z' l]; [discriminate|]. rewrite concat_cons.
  destruct i as [|i].
  - injection Hi as ->. destruct (concat_elem sep _ j y Hj) as (a & c & Heq).
    exists "", (sep +:+ a), c. rewrite Heq. now rewrite !append_assoc.
  - cbn in Hi. destruct (IH i j x y Hi Hj ltac:(lia)) as (a & b & c & Heq).
    exists (z +:+ sep +:+ a), b, c. rewrite Heq. now rewrite !append_assoc.
Qed.

(** [build_query] renders the list of its terms. *)
Lemma build_query_terms (topics keywords : list string) :
  build_query topics keywords =
    match query_terms topics keywords with
    | [] => ""
    | [p] => p
    | parts => "(" +:+ String.concat " OR " parts +:+ ")"
    end.
Proof.
  unfold build_query, query_terms.
  assert (Ht : (if list_truthy topics then ([] ++ map topic_term topics)%list else [])
               = map topic_term topics) by now destruct topics.
  cbn zeta. rewrite Ht.
  assert (Hk : (if list_truthy keywords
                then (map topic_term topics ++ map keyword_term keywords)%list
                else map topic_term topics)
               = (map topic_term topics ++ map keyword_term keywords)%list)
    by (destruct keywords; [now rewrite app_nil_r | reflexivity]).
  rewrite Hk.
  destruct (map topic_term topics ++ map keyword_term keywords)%list as [|p [|q l]];
    reflexivity.
Qed.

(** C6. [build_query] returns the empty string for no topic and no keyword;
    the term alone when there is a single one, [topic:t] for a topic [t] and
    [k in:name,description,readme] for a keyword [k]; and otherwise all the
    terms joined with [ OR ] between one pair of parentheses. *)
Theorem build_query_shape :
  build_query [] [] = ""
  /\ (forall t, build_query [t] [] = "topic:" +:+ t)
  /\ (forall k, build_query [] [k] = k +:+ " in:name,description,readme")
  /\ (forall topics keywords p,
        query_terms topics keywords = [p] -> build_query topics keywords = p)
  /\ (forall topics keywords,
        (2 <= length topics + length keywords)%nat ->
        build_query topics keywords
        = "(" +:+ String.concat " OR " (query_terms topics keywords) +:+ ")").
Proof.
  repeat split; try reflexivity.
  - intros topics keywords p Hp. now rewrite build_query_terms, Hp.
  - intros topics keywords Hlen. rewrite build_query_terms.
    assert (Hl : length (query_terms topics keywords) = (length topics + length keywords)%nat)
      by (unfold query_terms; now rewrite length_app, !length_map).
    destruct (query_terms topics keywords) as [|p [|q l]]; cbn in Hl; try lia.
    reflexivity.
Qed.

(** C10. When a topic or a keyword is given, the output of [build_query] is
    the terms of the topics in their input order followed by the terms of the
    keywords in their input order, joined with [ OR ], bare or between
    parentheses; so a term placed earlier in that order stands earlier in the
    output. *)
Theorem build_query_order (topics keywords : list string) :
  topics <> [] \/ keywords <> [] ->
  (exists opening closing,
     build_query topics keywords
     = opening +:+ String.concat " OR " (map topic_term topics ++ map keyword_term keywords)
       +:+ closing
     /\ ((opening = "" /\ closing = "") \/ (opening = "(" /\ closing = ")")))
  /\ (forall (i j : nat) (x y : string),
        (map topic_term topics ++ map keyword_term keywords)%list !! i = Some x ->
        (map topic_term topics ++ map keyword_term keywords)%list !! j = Some y ->
        (i < j)%nat ->
        exists a b c, build_query topics keywords = a +:+ x +:+ b +:+ y +:+ c).
Proof.
  intros Hne.
  assert (Hshape : exists opening closing,
     build_query topics keywords
     = opening +:+ String.concat " OR " (map topic_term topics ++ map keyword_term keywords)
       +:+ closing
     /\ ((opening = "" /\ closing = "") \/ (opening = "(" /\ closing = ")"))).
  { rewrite build_query_terms. unfold query_terms.
    destruct (map topic_term topics ++ map keyword_term keywords)%list as [|p [|q l]] eqn:E.
    - apply app_eq_nil in E as [E1 E2]. apply map_eq_nil in E1, E2. tauto.
    - exists "", "". cbn. rewrite append_nil_r. auto.
    - exists "(", ")". auto. }
  split; [exact Hshape|].
  intros i j x y Hi Hj Hlt.
  destruct Hshape as (opening & closing & -> & _).
  destruct (concat_order " OR " _ i j x y Hi Hj Hlt) as (a & b & c & ->).
  exists (opening +:+ a), b, (c +:+ closing). now rewrite !append_assoc.
Qed.

(** ** Failures of the remote service *)

Lemma no_failed_call_app (l1 l2 : list event) :
  no_failed_call (l1 ++ l2) <-> no_failed_call l1 /\ no_failed_call l2.
Proof. apply Forall_app. Qed.

Lemma fails_fast_quiet {W A} (r : result W A) :
  Forall (fun ev => is_call ev = false) (events r) -> fails_fast r.
Proof.
  intros H. left. unfold no_failed_call.
  eapply Forall_impl; [exact H|]. intros [req resp| |]; cbn; [discriminate | tauto | tauto].
Qed.

Lemma fails_fast_bind {W A B} (m : M W A) (f : A -> M W B) (w : W) :
  fails_fast (m w) -> (forall a w', fails_fast (f a w')) -> fails_fast (bind m f w).
Proof.
  intros Hm Hf. rewrite bind_run.
  destruct (out (m w)) as [a|x|] eqn:Hout.
  - destruct Hm as [Hm | (pre & req & resp & _ & _ & _ & Hraise)]; [|congruence].
    destruct (Hf a (world (m w))) as [Hq | (pre & req & resp & Hev & Hpre & Hbad & Hraise)].
    + left. cbn. now apply no_failed_call_app.
    + right. exists (events (m w) ++ pre)%list, req, resp. cbn. rewrite Hev.
      repeat split; try assumption.
      * now rewrite app_assoc.
      * now apply no_failed_call_app.
  - destruct Hm as [Hm | (pre & req & resp & Hev & Hpre & Hbad & Hraise)].
    + now left.
    + right. exists pre, req, resp. cbn. repeat split; try assumption. congruence.
  - destruct Hm as [Hm | (pre & req & resp & _ & _ & _ & Hraise)]; [now left | congruence].
Qed.

(** A failed call among the events of a run that stops at the first failure
    is the last event, and the run raises its error. *)
Lemma fails_fast_last {W A} (r : result W A) (pre post : list event)
    (req : request) (resp : response) :
  fails_fast r ->
  events r = (pre ++ Call req resp :: post)%list ->
  response_ok resp = false ->
  post = [] /\ out r = Raise (HTTPError resp).
Proof.
  intros [Hnone | (pre' & req' & resp' & Hev & Hpre & Hbad & Hraise)] Hsplit Hfail.
  - rewrite Hsplit in Hnone. apply no_failed_call_app in Hnone as [_ Hnone].
    inversion Hnone as [|? ? Hhead _]. now contradiction Hhead.
  - rewrite Hsplit in Hev. destruct post as [|ev post] using rev_ind.
    + apply app_inj_tail in Hev as [_ Hev]. injection Hev as _ <-. auto.
    + clear IHpost. rewrite app_comm_cons, app_assoc in Hev.
      apply app_inj_tail in Hev as [Hev _]. rewrite <- Hev in Hpre.
      apply no_failed_call_app in Hpre as [_ Hpre].
      inversion Hpre as [|? ? Hhead _]. now contradiction Hhead.
Qed.

Section Driver.

Context {World : Type}.
Variable remote : request -> World -> response * World.
Variable strptime : string -> string -> string + datetime.
Variable environ : gmap string string.

Lemma fails_fast_github_search_count (query : string) (tok : option string) (w : World) :
  fails_fast (github_search_count remote query tok w).
Proof.
  rewrite github_search_count_run. cbn zeta.
  destruct (response_ok _) eqn:Hok.
  - left. constructor; [|constructor]. cbn. congruence.
  - right. exists [], (search_request query tok), (fst (remote (search_request query tok) w)).
    repeat split; [constructor | assumption].
Qed.

Lemma fails_fast_dt_add (d : datetime) (t : timedelta) (w : World) :
  fails_fast (@dt_add World d t w).
Proof. apply fails_fast_quiet. destruct (dt_add_cases d t w) as [-> | ->]; constructor. Qed.

Lemma fails_fast_ret {A} (a : A) (w : World) : fails_fast (@ret World A a w).
Proof. apply fails_fast_quiet. constructor. Qed.

Lemma fails_fast_print (line : string) (w : World) : fails_fast (@print World line w).
Proof. apply fails_fast_quiet. repeat constructor. Qed.

Lemma fails_fast_time_sleep (secs : Q) (w : World) : fails_fast (@time_sleep World secs w).
Proof.
  apply fails_fast_quiet. unfold time_sleep. destruct (Qle_bool 0 secs); repeat constructor.
Qed.

Lemma fails_fast_count_range_fuel (n : nat) :
  forall qb s e tok exact w, fails_fast (count_range_fuel remote n qb s e tok exact w).
Proof.
  induction n as [|n IH]; intros qb s e tok exact w.
  - apply fails_fast_quiet. constructor.
  - rewrite count_range_fuel_S. unfold count_range_body.
    apply fails_fast_bind; [apply fails_fast_github_search_count|]. intros resp w1.
    destruct (exact && _ && _); [|apply fails_fast_ret].
    apply fails_fast_bind; [apply fails_fast_dt_add|]. intros mid w2.
    apply fails_fast_bind; [apply IH|]. intros lft w3.
    apply fails_fast_bind; [apply fails_fast_dt_add|]. intros rs w4.
    destruct (rs >? e); [apply fails_fast_ret|].
    apply fails_fast_bind; [apply IH|]. intros rgt w5. apply fails_fast_ret.
Qed.

Lemma fails_fast_count_range qb s e tok exact (w : World) :
  fails_fast (count_range remote qb s e tok exact w).
Proof. apply fails_fast_count_range_fuel. Qed.

Lemma fails_fast_per_term_loop (args : Namespace) (s e : datetime) (tok : option string)
    (terms : list string) :
  forall results w, fails_fast (per_term_loop remote args s e tok terms results w).
Proof.
  induction terms as [|t terms IH]; intros results w; cbn [per_term_loop].
  - apply fails_fast_ret.
  - apply fails_fast_bind; [apply fails_fast_count_range|]. intros cnt w1.
    apply fails_fast_bind; [apply fails_fast_print|]. intros _ w2.
    apply fails_fast_bind.
    + destruct (negb _); [apply fails_fast_time_sleep | apply fails_fast_ret].
    + intros _ w3. apply IH.
Qed.

Lemma fails_fast_run (args : Namespace) (w : World) :
  fails_fast (run remote strptime environ args w).
Proof.
  unfold run.
  destruct (parse_date strptime (arg_start args)) as [msg|s].
  { apply fails_fast_bind; [apply fails_fast_print | intros; apply fails_fast_ret]. }
  destruct (parse_date strptime (arg_end args)) as [msg|e].
  { apply fails_fast_bind; [apply fails_fast_print | intros; apply fails_fast_ret]. }
  destruct (s >? e).
  { apply fails_fast_bind; [apply fails_fast_print | intros; apply fails_fast_ret]. }
  cbn zeta. destruct (negb _).
  { apply fails_fast_bind; [apply fails_fast_print | intros; apply fails_fast_ret]. }
  destruct (arg_per_term args).
  - apply fails_fast_bind; [apply fails_fast_per_term_loop|]. intros results w1.
    apply fails_fast_bind; [apply fails_fast_print | intros; apply fails_fast_ret].
  - apply fails_fast_bind; [apply fails_fast_count_range|]. intros total w1.
    apply fails_fast_bind; [apply fails_fast_print | intros; apply fails_fast_ret].
Qed.

(** C7. When the start date or the end date does not parse, or the start is
    after the end, or there is neither a topic nor a keyword, [run] returns
    the exit code 2 and has sent no request: the remote service is left as it
    was. *)
Theorem run_usage_error (args : Namespace) (w : World) :
  (exists msg, parse_date strptime (arg_start args) = inl msg)
  \/ (exists msg, parse_date strptime (arg_end args) = inl msg)
  \/ (exists s e, parse_date strptime (arg_start args) = inr s
                  /\ parse_date strptime (arg_end args) = inr e /\ s > e)
  \/ (arg_topics args = [] /\ arg_keywords args = []) ->
  out (run remote strptime environ args w) = Ok 2
  /\ world (run remote strptime environ args w) = w
  /\ calls (events (run remote strptime environ args w)) = [].
Proof.
  intros Hcase. unfold run.
  destruct (parse_date strptime (arg_start args)) as [msg|s] eqn:Hs; [now cbn|].
  destruct (parse_date strptime (arg_end args)) as [msg|e] eqn:He; [now cbn|].
  destruct (s >? e) eqn:Hgt; [now cbn|].
  destruct Hcase as [(msg & ?) | [(msg & ?) | [(s' & e' & Hs' & He' & Hlt) | [Ht Hk]]]];
    try discriminate.
  - injection Hs' as <-. injection He' as <-.
    rewrite Z.gtb_ltb in Hgt. apply Z.ltb_ge in Hgt. lia.
  - rewrite Ht, Hk. now cbn.
Qed.

(** C8. A call answered with an error status is fatal, and nothing follows
    it. [github_search_count] raises the error after its single request;
    in [count_range] and in [run], a failed call is the last event of the
    run, which ends with that error raised: no sum is returned and no line is
    printed after the failure. *)
Theorem http_error_aborts (req : request) (resp : response) :
  response_ok resp = false ->
  (forall query tok w w1,
     req = search_request query tok ->
     remote req w = (resp, w1) ->
     github_search_count remote query tok w = Result (Raise (HTTPError resp)) w1 [Call req resp])
  /\ (forall qb s e tok exact w pre post,
        events (count_range remote qb s e tok exact w) = (pre ++ Call req resp :: post)%list ->
        post = [] /\ out (count_range remote qb s e tok exact w) = Raise (HTTPError resp))
  /\ (forall args w pre post,
        events (run remote strptime environ args w) = (pre ++ Call req resp :: post)%list ->
        post = [] /\ out (run remote strptime environ args w) = Raise (HTTPError resp)).
Proof.
  intros Hfail. repeat split.
  - intros query tok w w1 -> Hr. rewrite github_search_count_run. cbn zeta.
    apply remote_eta in Hr as [-> ->]. now rewrite Hfail.
  - eapply fails_fast_last; eauto using fails_fast_count_range.
  - eapply fails_fast_last; eauto using fails_fast_count_range.
  - eapply fails_fast_last; eauto using fails_fast_run.
  - eapply fails_fast_last; eauto using fails_fast_run.
Qed.

End Driver.

(** ** The program on examples *)

(** The end-to-end scenario: one request for the combined query, one line. *)
Example run_aggregate_42 :
  let args := {| arg_start := "2020-01-01"; arg_end := "2020-12-31";
                 arg_topics := ["cli"]; arg_keywords := ["tool"];
                 arg_per_term := false; arg_token := None; arg_exact := false;
                 arg_sleep := 0%Q |} in
  let r := run (Mock.constant 42) Mock.strptime ∅ args tt in
  out r = Ok 0
  /\ map (fun ev => match ev with
                    | Call req _ => req_q req
                    | Print line => line
                    | Sleep _ => "sleep"
                    end) (events r)
     = [ "(topic:cli OR tool in:name,description,readme) created:2020-01-01..2020-12-31";
         "TOTAL matching any provided topics/keywords: 42" ].
Proof. vm_compute. split; reflexivity. Qed.

(** The per-term mode: one count and one line per term, then their sum. *)
Example run_per_term :
  let args := {| arg_start := "2020-01-01"; arg_end := "2020-12-31";
                 arg_topics := ["cli"]; arg_keywords := ["tool"];
                 arg_per_term := true; arg_token := Some "secret"; arg_exact := true;
                 arg_sleep := 0%Q |} in
  let r := run (Mock.constant 42) Mock.strptime ∅ args tt in
  out r = Ok 0
  /\ map (fun ev => match ev with
                    | Call req _ => req_q req
                    | Print line => line
                    | Sleep _ => "sleep"
                    end) (events r)
     = [ "topic:cli created:2020-01-01..2020-12-31";
         "topic:cli: 42";
         "tool in:name,description,readme created:2020-01-01..2020-12-31";
         "tool in:name,description,readme: 42";
         "TOTAL (sum of terms): 84" ].
Proof. vm_compute. split; reflexivity. Qed.

(** In the last second of the last supported day the start of the right half
    does not exist: the addition raises. *)
Example count_range_overflow_at_max :
  out (count_range (Mock.constant 1000) "topic:cli" (dt_max - 1) dt_max None true tt)
  = Raise OverflowError.
Proof. vm_compute. reflexivity. Qed.

(** A split of a range of calendar dates puts one date on both sides: the day
    of the midpoint ends the left query and starts the right one. *)
Lemma split_boundary_day_shared (a b : date) :
  a < b ->
  date_of (right_start_of (midnight a) (midnight b))
  = date_of (midpoint (midnight a) (midnight b)).
Proof.
  intros Hlt. unfold right_start_of, midpoint, dt_sub, midnight, date_of, timedelta_seconds.
  change us_per_second with 1000000. change us_per_day with 86400000000.
  set (d := b * 86400000000 - a * 86400000000).
  assert (Hd : d = 2 * ((b - a) * 43200000000)) by (subst d; lia).
  assert (Hhalf : td_div d 2 = (b - a) * 43200000000).
  { destruct (td_div_2_cases d) as [-> | (_ & Hodd & _)].
    - rewrite Hd. rewrite Z.mul_comm, Z.div_mul; lia.
    - rewrite Hd, Z.mul_comm, Z.mod_mul in Hodd; lia. }
  rewrite Hhalf.
  pose proof (Z.div_mod (b - a) 2 ltac:(lia)) as Hw.
  pose proof (Z.mod_pos_bound (b - a) 2 ltac:(lia)) as Hr.
  set (q := (b - a) / 2) in *. set (r := (b - a) mod 2) in *.
  replace (a * 86400000000 + (b - a) * 43200000000 + 1 * 1000000)
    with ((a + q) * 86400000000 + (r * 43200000000 + 1000000)) by lia.
  replace (a * 86400000000 + (b - a) * 43200000000)
    with ((a + q) * 86400000000 + r * 43200000000) by lia.
  rewrite !(Z.add_comm (_ * 86400000000)), !Z.div_add by lia.
  rewrite !Z.div_small by lia. reflexivity.
Qed.

(** C1. The service holds one repository per day. Over the 1000 days from
    2020-01-01 to 2022-09-26 the day-by-day sum is 1000, and [count_range] in
    exact mode returns 1001: the midpoint, noon of 2021-05-14, ends the left
    query and, one second later, starts the right one, so that day is
    counted on both sides. *)
Theorem count_range_double_counts :
  let remote := Mock.by_day (fun _ => 1) in
  let start := midnight (ymd2ord 2020 1 1) in
  let end_ := midnight (ymd2ord 2022 9 26) in
  let r := count_range remote "topic:cli" start end_ None true tt in
  naive_sum remote "topic:cli" (date_of start) (date_of end_) None tt = 1000
  /\ out r = Ok 1001
  /\ map (fun ev => match ev with
                    | Call req resp => (req_q req, total_of resp)
                    | _ => ("", 0)
                    end) (events r)
     = [ ("topic:cli created:2020-01-01..2022-09-26", 1000);
         ("topic:cli created:2020-01-01..2021-05-14", 500);
         ("topic:cli created:2021-05-14..2022-09-26", 501) ].
Proof. vm_compute. repeat split; reflexivity. Qed.

(** A year of days against a service that always reports 1000. *)
Lemma count_range_terminates_witness :
  let s := midnight (ymd2ord 2020 1 1) in
  let e := midnight (ymd2ord 2020 12 31) in
  out (count_range (Mock.constant 1000) "topic:cli" s e None true tt) <> OutOfFuel
  /\ exists n, out (count_range (Mock.constant 1000) "topic:cli" s e None true tt) = Ok n.
Proof.
  intros s e.
  assert (H1 : s <= e) by now vm_compute.
  assert (H2 : dt_min <= s) by now vm_compute.
  assert (H3 : e + timedelta_seconds 1 <= dt_max) by now vm_compute.
  destruct (count_range_terminates (Mock.constant 1000) "topic:cli" s e None tt H1 H2 H3)
    as (Hfuel & _ & _ & Hok & _).
  split; [exact Hfuel|]. apply Hok. intros req w'. reflexivity.
Defined.

(** A total of 42 is returned at once; a total of 1000 over a year is split. *)
Lemma count_range_split_decision_witness :
  let s := midnight (ymd2ord 2020 1 1) in
  let e := midnight (ymd2ord 2020 12 31) in
  count_range (Mock.constant 42) "topic:cli" s e None true tt
  = Result (Ok 42) tt
      [Call (range_request "topic:cli" s e None) (Response 200 {[ "total_count" := 42 ]})]
  /\ exists resp' rest,
       events (count_range (Mock.constant 1000) "topic:cli" s e None true tt)
       = Call (range_request "topic:cli" s e None) (Response 200 {[ "total_count" := 1000 ]})
         :: Call (range_request "topic:cli" s (midpoint s e) None) resp' :: rest.
Proof.
  intros s e. split.
  - apply (proj1 (count_range_split_decision (Mock.constant 42) "topic:cli" s e None true
                    tt tt (Response 200 {[ "total_count" := 42 ]}) eq_refl eq_refl)).
    right. left. now vm_compute.
  - apply (proj2 (count_range_split_decision (Mock.constant 1000) "topic:cli" s e None true
                    tt tt (Response 200 {[ "total_count" := 1000 ]}) eq_refl eq_refl));
      now vm_compute.
Defined.

(** C3 as stated fails: midnight of 2020-01-01 and the microsecond after it
    are on one calendar date, and with a total of 1000 in exact mode
    [count_range] splits: it sends a second request, for the left half. *)
Lemma same_date_range_is_split :
  let s := midnight (ymd2ord 2020 1 1) in
  let e := s + 1 in
  let q := Call (range_request "topic:cli" s e None) (Response 200 {[ "total_count" := 1000 ]}) in
  date_of s = date_of e
  /\ Mock.constant 1000 (range_request "topic:cli" s e None) tt
     = (Response 200 {[ "total_count" := 1000 ]}, tt)
  /\ req_q (range_request "topic:cli" s e None) = "topic:cli created:2020-01-01..2020-01-01"
  /\ events (count_range (Mock.constant 1000) "topic:cli" s e None true tt) = [q; q]
  /\ count_range (Mock.constant 1000) "topic:cli" s e None true tt
     <> Result (Ok 1000) tt [q].
Proof. vm_compute. repeat split; try reflexivity. discriminate. Qed.

(** Two seconds wide, every total 1000: the left half counts 1000 and so does
    the right one, which starts at the end. *)
Lemma count_range_split_result_witness :
  let s := midnight (ymd2ord 2020 1 1) in
  let e := s + timedelta_seconds 2 in
  out (count_range (Mock.constant 1000) "topic:cli" s e None true tt) = Ok 2000.
Proof.
  intros s e.
  set (resp := Response 200 {[ "total_count" := 1000 ]}).
  assert (H1 : 1000 <= total_of resp) by now vm_compute.
  assert (H2 : s < e) by now vm_compute.
  assert (H3 : dt_min <= s) by now vm_compute.
  assert (H4 : e + timedelta_seconds 1 <= dt_max) by now vm_compute.
  destruct (count_range_split_result (Mock.constant 1000) "topic:cli" s e None tt tt resp
              eq_refl eq_refl H1 H2 H3 H4 1000 ltac:(vm_compute; reflexivity)) as [_ Hsum].
  rewrite (Hsum ltac:(now vm_compute) 1000 ltac:(vm_compute; reflexivity)).
  reflexivity.
Defined.

(** Without [exact], a total of 5000 is returned after one request. *)
Lemma count_range_inexact_single_call_witness :
  let s := midnight (ymd2ord 2020 1 1) in
  let e := midnight (ymd2ord 2020 12 31) in
  out (count_range (Mock.constant 5000) "topic:cli" s e None false tt) = Ok 5000
  /\ events (count_range (Mock.constant 5000) "topic:cli" s e None false tt)
     = [Call (range_request "topic:cli" s e None) (Response 200 {[ "total_count" := 5000 ]})].
Proof.
  intros s e.
  destruct (count_range_inexact_single_call (Mock.constant 5000) "topic:cli" s e None tt tt
              (Response 200 {[ "total_count" := 5000 ]}) eq_refl) as (Hev & _ & Hout).
  split; [|exact Hev]. apply Hout; reflexivity.
Defined.

(** An empty JSON object counts for zero. *)
Lemma count_range_missing_total_count_witness :
  let s := midnight (ymd2ord 2020 1 1) in
  let e := midnight (ymd2ord 2020 12 31) in
  count_range (Mock.scripted [Response 200 ∅]) "topic:cli" s e None true 0%nat
  = Result (Ok 0) 1%nat [Call (range_request "topic:cli" s e None) (Response 200 ∅)].
Proof.
  intros s e.
  apply (count_range_missing_total_count (Mock.scripted [Response 200 ∅]) "topic:cli" s e None
           true 0%nat 1%nat (Response 200 ∅)); reflexivity.
Defined.

(** One topic and one keyword; one topic alone. *)
Lemma build_query_shape_witness :
  build_query ["cli"] ["tool"] = "(topic:cli OR tool in:name,description,readme)"
  /\ build_query ["cli"] [] = "topic:cli".
Proof.
  destruct build_query_shape as (_ & _ & _ & Hone & Hmany). split.
  - apply (Hmany ["cli"] ["tool"]). cbn. lia.
  - apply (Hone ["cli"] [] "topic:cli"). reflexivity.
Defined.

(** The second topic stands before the keyword. *)
Lemma build_query_order_witness :
  exists a b c,
    build_query ["cli"; "api"] ["tool"]
    = a +:+ "topic:api" +:+ b +:+ "tool in:name,description,readme" +:+ c.
Proof.
  destruct (build_query_order ["cli"; "api"] ["tool"]) as [_ Hpos].
  - left. discriminate.
  - apply (Hpos 1%nat 2%nat); [reflexivity | reflexivity | lia].
Defined.

(** The thirtieth of February is not a date: exit code 2, no request. *)
Lemma run_usage_error_witness :
  let args := {| arg_start := "2020-02-30"; arg_end := "2020-12-31";
                 arg_topics := ["cli"]; arg_keywords := [];
                 arg_per_term := false; arg_token := None; arg_exact := false;
                 arg_sleep := 0%Q |} in
  out (run (Mock.constant 42) Mock.strptime ∅ args tt) = Ok 2
  /\ world (run (Mock.constant 42) Mock.strptime ∅ args tt) = tt
  /\ calls (events (run (Mock.constant 42) Mock.strptime ∅ args tt)) = [].
Proof.
  intros args. apply run_usage_error.
  left. eexists. vm_compute. reflexivity.
Defined.

(** The first request is answered with 1000, the request for the left half
    with status 500: the count ends with that error. *)
Lemma http_error_aborts_witness :
  let s := midnight (ymd2ord 2020 1 1) in
  let e := midnight (ymd2ord 2020 1 3) in
  let script := [Response 200 {[ "total_count" := 1000 ]}; Response 500 ∅] in
  out (count_range (Mock.scripted script) "topic:cli" s e None true 0%nat)
  = Raise (HTTPError (Response 500 ∅)).
Proof.
  intros s e script.
  destruct (http_error_aborts (Mock.scripted script) Mock.strptime ∅
              (range_request "topic:cli" s (midpoint s e) None) (Response 500 ∅) eq_refl)
    as (_ & Hcount & _).
  apply (Hcount "topic:cli" s e None true 0%nat
           [Call (range_request "topic:cli" s e None) (Response 200 {[ "total_count" := 1000 ]})]
           []).
  vm_compute. reflexivity.
Defined.

(** ** Further properties of the query builder and of the split *)

Lemma append_eq_empty (s t : string) : s +:+ t = "" -> s = "" /\ t = "".
Proof. destruct s; [now cbn | rewrite append_cons; discriminate]. Qed.

Lemma build_query_nonempty (topics keywords : list string) :
  build_query topics keywords = "" -> topics = [] /\ keywords = [].
Proof.
  rewrite build_query_terms. unfold query_terms.
  destruct topics as [|t topics]; destruct keywords as [|k keywords]; cbn [map app];
    [tauto| | |].
  - destruct keywords; [|discriminate]. intros H.
    apply append_eq_empty in H as [_ H]. discriminate.
  - destruct topics; discriminate.
  - destruct (map topic_term topics ++ keyword_term k :: map keyword_term keywords)%list;
      discriminate.
Qed.

(** X1. [build_query] is empty for no term only: a topic or a keyword, even the
    empty string, makes a query. *)
Theorem build_query_empty_iff (topics keywords : list string) :
  build_query topics keywords = "" <-> topics = [] /\ keywords = [].
Proof. split; [apply build_query_nonempty | now intros [-> ->]]. Qed.

(** X2. The split of a range of calendar dates [a < b]: the midpoint is exactly
    half of the days after the start, at midnight or at noon; the right half
    is never empty; and the date of the midpoint, from [a] up to but not
    [b], is both the last date of the left query and the first of the right
    one. *)
Theorem date_range_split (a b : date) :
  a < b ->
  midpoint (midnight a) (midnight b) = midnight a + (b - a) * (us_per_day / 2)
  /\ right_start_of (midnight a) (midnight b) <= midnight b
  /\ date_of (midpoint (midnight a) (midnight b)) = a + (b - a) / 2
  /\ date_of (right_start_of (midnight a) (midnight b))
     = date_of (midpoint (midnight a) (midnight b))
  /\ a <= date_of (midpoint (midnight a) (midnight b)) < b.
Proof.
  intros Hlt.
  assert (Hmid : midpoint (midnight a) (midnight b) = midnight a + (b - a) * (us_per_day / 2)).
  { unfold midpoint, dt_sub, midnight. change (us_per_day / 2) with 43200000000.
    change us_per_day with 86400000000. f_equal.
    set (d := b * 86400000000 - a * 86400000000).
    assert (Hd : d = 2 * ((b - a) * 43200000000)) by (subst d; lia).
    destruct (td_div_2_cases d) as [-> | (_ & Hodd & _)].
    - rewrite Hd. rewrite Z.mul_comm, Z.div_mul; lia.
    - rewrite Hd, Z.mul_comm, Z.mod_mul in Hodd; lia. }
  assert (Hday : date_of (midpoint (midnight a) (midnight b)) = a + (b - a) / 2).
  { rewrite Hmid. unfold date_of, midnight. change (us_per_day / 2) with 43200000000.
    change us_per_day with 86400000000.
    pose proof (Z.div_mod (b - a) 2 ltac:(lia)) as Hw.
    pose proof (Z.mod_pos_bound (b - a) 2 ltac:(lia)) as Hr.
    set (q := (b - a) / 2) in *. set (r := (b - a) mod 2) in *.
    replace (a * 86400000000 + (b - a) * 43200000000)
      with ((a + q) * 86400000000 + r * 43200000000) by lia.
    rewrite Z.add_comm, Z.div_add by lia. rewrite Z.div_small by lia. reflexivity. }
  repeat split.
  - exact Hmid.
  - unfold right_start_of. rewrite Hmid. unfold midnight, timedelta_seconds.
    change (us_per_day / 2) with 43200000000. change us_per_day with 86400000000.
    change us_per_second with 1000000. lia.
  - exact Hday.
  - now apply split_boundary_day_shared.
  - rewrite Hday. pose proof (Z.div_pos (b - a) 2 ltac:(lia) ltac:(lia)). lia.
  - rewrite Hday. assert ((b - a) / 2 < b - a) by (apply Z.div_lt; lia). lia.
Qed.

(** From new year to new year's eve of 2020. *)
Lemma date_range_split_witness :
  date_of (right_start_of (midnight (ymd2ord 2020 1 1)) (midnight (ymd2ord 2020 12 31)))
  = date_of (midpoint (midnight (ymd2ord 2020 1 1)) (midnight (ymd2ord 2020 12 31))).
Proof.
  apply (date_range_split (ymd2ord 2020 1 1) (ymd2ord 2020 12 31)). now vm_compute.
Defined.

(** ** Further properties of the range counter *)

Section Counter.

Context {World : Type}.
Variable remote : request -> World -> response * World.

Lemma range_call_widen (qb : string) (tok : option string) (s e s' e' : datetime)
    (evs : list event) :
  s <= s' -> e' <= e ->
  Forall (range_call qb tok s' e') evs -> Forall (range_call qb tok s e) evs.
Proof.
  intros Hs He Hall. eapply Forall_impl; [exact Hall|].
  intros ev (s0 & e0 & resp & -> & H1 & H2 & H3).
  exists s0, e0, resp. repeat split; lia.
Qed.

(** The events of a split are those of the left recursion, followed by those
    of the right one when it is made. *)
Lemma split_of_events_cases
    (rec : string -> datetime -> datetime -> option string -> bool -> M World Z)
    (qb : string) (s e : datetime) (tok : option string) (exact : bool) (w : World) :
  events (split_of rec qb s e tok exact w) = []
  \/ events (split_of rec qb s e tok exact w) = events (rec qb s (midpoint s e) tok exact w)
  \/ (right_start_of s e <= e
      /\ events (split_of rec qb s e tok exact w)
         = (events (rec qb s (midpoint s e) tok exact w)
            ++ events (rec qb (right_start_of s e) e tok exact
                         (world (rec qb s (midpoint s e) tok exact w))))%list).
Proof.
  destruct (decide (dt_min <= midpoint s e <= dt_max)) as [Hmid|Hmid];
    [|left; now rewrite split_of_overflow].
  rewrite split_of_run by assumption. cbn zeta.
  destruct (out (rec qb s (midpoint s e) tok exact w)); cbn; try tauto.
  destruct (_ && _); cbn; [|tauto].
  destruct (right_start_of s e >? e) eqn:Hgt; cbn; [tauto|].
  rewrite Z.gtb_ltb in Hgt. apply Z.ltb_ge in Hgt.
  right. right. split; [exact Hgt|].
  destruct (out (rec qb (right_start_of s e) e tok exact _)); reflexivity.
Qed.

Lemma count_range_range_calls (qb : string) (tok : option string) (exact : bool) :
  forall s e w,
    s <= e ->
    Forall (range_call qb tok s e) (events (count_range remote qb s e tok exact w)).
Proof.
  intros s e. induction s, e as [s e IH] using range_ind. intros w Hle.
  assert (Hown : forall resp, range_call qb tok s e (Call (range_request qb s e tok) resp))
    by (intros resp; exists s, e, resp; repeat split; lia).
  rewrite count_range_unfold, count_range_body_run. cbn zeta.
  destruct (response_ok _); [|now repeat constructor].
  destruct (exact && _ && _) eqn:C; [|now repeat constructor].
  apply split_condition in C as (_ & _ & Hlt).
  unfold prepend. cbn [events]. constructor; [apply Hown|].
  pose proof (child_shrinks _ _ _ _ (child_left s e Hlt)) as Hl.
  assert (Hleft : forall w', Forall (range_call qb tok s e)
                    (events (count_range remote qb s (midpoint s e) tok exact w'))).
  { intros w'. apply (range_call_widen qb tok s e s (midpoint s e)); [lia | lia |].
    apply (IH _ _ (child_left s e Hlt)). lia. }
  destruct (split_of_events_cases (count_range remote) qb s e tok exact
              (snd (remote (range_request qb s e tok) w))) as [-> | [-> | [Hrs ->]]].
  - constructor.
  - apply Hleft.
  - apply Forall_app. split; [apply Hleft|].
    pose proof (child_shrinks _ _ _ _ (child_right s e Hlt Hrs)) as Hr.
    apply (range_call_widen qb tok s e (right_start_of s e) e); [lia | lia |].
    apply (IH _ _ (child_right s e Hlt Hrs)). lia.
Qed.

(** X3. Every event of a count over [start .. end] with [start <= end] is a
    request, for a range inside [start .. end], with the query base and the
    token of the count; the first one is the request for the whole range. A
    count prints nothing and never sleeps. *)
Theorem count_range_requests_in_range (qb : string) (s e : datetime)
    (tok : option string) (exact : bool) (w : World) :
  s <= e ->
  Forall (range_call qb tok s e) (events (count_range remote qb s e tok exact w))
  /\ (exists rest,
        events (count_range remote qb s e tok exact w)
        = Call (range_request qb s e tok) (fst (remote (range_request qb s e tok) w)) :: rest)
  /\ lines_of (events (count_range remote qb s e tok exact w)) = []
  /\ sleeps_of (events (count_range remote qb s e tok exact w)) = [].
Proof.
  intros Hle.
  pose proof (count_range_range_calls qb tok exact s e w Hle) as Hall.
  split; [exact Hall|]. split; [apply count_range_first_call|].
  split.
  - induction Hall as [|ev evs (s' & e' & resp & -> & _) _ IH]; [reflexivity | exact IH].
  - induction Hall as [|ev evs (s' & e' & resp & -> & _) _ IH]; [reflexivity | exact IH].
Qed.

Lemma date_of_mono (a b : datetime) : a <= b -> date_of a <= date_of b.
Proof. intros H. unfold date_of. apply Z.div_le_mono; [reflexivity | exact H]. Qed.

(** X4. Splitting inside a calendar day repeats one query. When [start <= end]
    lie on the same date, every request of the count, however deep the
    recursion, is the request of the whole range: the same query for that
    single date. *)
Theorem same_date_requests_repeat (qb : string) (s e : datetime) (tok : option string)
    (exact : bool) (w : World) :
  s <= e -> date_of s = date_of e ->
  Forall (fun ev => exists resp, ev = Call (range_request qb s e tok) resp)
    (events (count_range remote qb s e tok exact w)).
Proof.
  intros Hle Hdate.
  eapply Forall_impl; [apply (count_range_range_calls qb tok exact s e w Hle)|].
  intros ev (s' & e' & resp & -> & H1 & H2 & H3). exists resp. f_equal.
  pose proof (date_of_mono _ _ H1). pose proof (date_of_mono _ _ H2).
  pose proof (date_of_mono _ _ H3).
  unfold range_request, full_query, date_range_clause.
  replace (date_of s') with (date_of s) by lia.
  replace (date_of e') with (date_of s) by lia.
  now rewrite <- Hdate.
Qed.


Lemma right_start_in_range (s e : datetime) :
  dt_min <= s -> s < e -> e + timedelta_seconds 1 <= dt_max ->
  (dt_min <=? right_start_of s e) && (right_start_of s e <=? dt_max) = true.
Proof.
  intros Hs Hlt He. pose proof (midpoint_between s e Hlt).
  assert (timedelta_seconds 1 = 1000000) by reflexivity.
  apply andb_true_iff. rewrite !Z.leb_le. unfold right_start_of. lia.
Qed.


(** X6. Exact mode against a capped source is costly. When every request is
    answered with a success status and a total of at least 1000, a count over
    [start .. end] sends more than one request per second of the range:
    one million times the number of requests is at least the width in
    microseconds plus one million. *)
Theorem capped_count_cost (qb : string) (tok : option string) :
  (forall req w, response_ok (fst (remote req w)) = true
                 /\ 1000 <= total_of (fst (remote req w))) ->
  forall s e w,
    dt_min <= s -> s <= e -> e + timedelta_seconds 1 <= dt_max ->
    (e - s) + 1000000
    <= 1000000 * Z.of_nat (length (events (count_range remote qb s e tok true w))).
Proof.
  intros Hcap s e. induction s, e as [s e IH] using range_ind. intros w Hs Hle He.
  assert (Hsec : timedelta_seconds 1 = 1000000) by reflexivity.
  destruct (Hcap (range_request qb s e tok) w) as [Hok Htot].
  rewrite count_range_unfold, count_range_body_run. cbn zeta. rewrite Hok.
  destruct (Z_lt_le_dec s e) as [Hlt | Hge].
  - replace (true && (1000 <=? total_of _) && (s <? e)) with true
      by (symmetry; now apply split_condition).
    pose proof (midpoint_between s e Hlt) as Hm.
    unfold prepend. cbn [events length]. rewrite split_of_run by lia. cbn zeta.
    rewrite (right_start_in_range s e Hs Hlt He).
    generalize (snd (remote (range_request qb s e tok) w)). intros w1.
    destruct (count_range_returns remote qb tok true (fun req w' => proj1 (Hcap req w'))
                s (midpoint s e) w1 ltac:(lia) ltac:(lia)) as [l Hl].
    pose proof (IH _ _ (child_left s e Hlt) w1 ltac:(lia) ltac:(lia) ltac:(lia)) as IHl.
    rewrite Hl.
    destruct (right_start_of s e >? e) eqn:Hgt; cbn [events app length].
    + rewrite Z.gtb_ltb in Hgt. apply Z.ltb_lt in Hgt. unfold right_start_of in Hgt. lia.
    + rewrite Z.gtb_ltb in Hgt. apply Z.ltb_ge in Hgt.
      pose proof (IH _ _ (child_right s e Hlt Hgt)
                    (world (count_range remote qb s (midpoint s e) tok true w1))
                    ltac:(unfold right_start_of; lia) Hgt He) as IHr.
      destruct (out (count_range remote qb (right_start_of s e) e tok true _));
        cbn [events app length]; rewrite length_app;
        pose proof (eq_refl : right_start_of s e = midpoint s e + timedelta_seconds 1); lia.
  - replace (true && (1000 <=? total_of _) && (s <? e)) with false
      by (symmetry; apply not_true_is_false; rewrite split_condition; lia).
    cbn. lia.
Qed.

End Counter.


(** Two days, every total 1000: more than 86400 requests. *)
Lemma capped_count_cost_witness :
  86400 < Z.of_nat (length (events (count_range (Mock.constant 1000) "topic:cli"
                                      (midnight (ymd2ord 2020 1 1))
                                      (midnight (ymd2ord 2020 1 2)) None true tt))).
Proof.
  pose proof (capped_count_cost (Mock.constant 1000) "topic:cli" None
                ltac:(intros; split; now vm_compute)
                (midnight (ymd2ord 2020 1 1)) (midnight (ymd2ord 2020 1 2)) tt
                ltac:(now vm_compute) ltac:(now vm_compute) ltac:(now vm_compute)) as H.
  change (midnight (ymd2ord 2020 1 2) - midnight (ymd2ord 2020 1 1)) with 86400000000 in H.
  revert H.
  generalize (length (events (count_range (Mock.constant 1000) "topic:cli"
                                (midnight (ymd2ord 2020 1 1))
                                (midnight (ymd2ord 2020 1 2)) None true tt))).
  intros n H. lia.
Defined.

(** ** Further properties of the driver *)

Lemma events_bind_Forall {W A B} (P : event -> Prop) (m : M W A) (f : A -> M W B) (w : W) :
  Forall P (events (m w)) -> (forall a w', Forall P (events (f a w'))) ->
  Forall P (events (bind m f w)).
Proof.
  intros Hm Hf. rewrite bind_run. destruct (out (m w)); cbn [events prepend]; try assumption.
  apply Forall_app. split; [assumption | apply Hf].
Qed.

Lemma str_truthy_false (s : string) : str_truthy s = false <-> s = "".
Proof. destruct s; cbn; split; congruence. Qed.

Section RunProperties.

Context {World : Type}.
Variable remote : request -> World -> response * World.
Variable strptime : string -> string -> string + datetime.
Variable environ : gmap string string.

Lemma sent_with_count_range_fuel (n : nat) :
  forall qb s e tok exact w,
    Forall (sent_with tok) (events (count_range_fuel remote n qb s e tok exact w)).
Proof.
  induction n as [|n IH]; intros qb s e tok exact w; [constructor|].
  rewrite count_range_fuel_S. unfold count_range_body.
  apply events_bind_Forall.
  { rewrite github_search_count_run. cbn zeta.
    destruct (response_ok _); repeat constructor. }
  intros resp w1. destruct (exact && _ && _); [|constructor].
  apply events_bind_Forall.
  { destruct (dt_add_cases s (td_div (dt_sub e s) 2) w1) as [-> | ->]; constructor. }
  intros mid w2. apply events_bind_Forall; [apply IH|]. intros lft w3.
  apply events_bind_Forall.
  { destruct (dt_add_cases mid (timedelta_seconds 1) w3) as [-> | ->]; constructor. }
  intros rs w4. destruct (rs >? e); [constructor|].
  apply events_bind_Forall; [apply IH|]. intros rgt w5. constructor.
Qed.

Lemma sent_with_per_term_loop (args : Namespace) (s e : datetime) (tok : option string)
    (terms : list string) :
  forall results w,
    Forall (sent_with tok) (events (per_term_loop remote args s e tok terms results w)).
Proof.
  induction terms as [|t terms IH]; intros results w; cbn [per_term_loop]; [constructor|].
  apply events_bind_Forall; [apply sent_with_count_range_fuel|]. intros cnt w1.
  apply events_bind_Forall; [repeat constructor|]. intros _ w2.
  apply events_bind_Forall; [|intros _ w3; apply IH].
  destruct (negb _); [|constructor].
  unfold time_sleep. destruct (Qle_bool 0 _); repeat constructor.
Qed.

(** X8. Every request of a run goes to the search URL with one result per page,
    the timeout of 30 seconds and the same headers: the [Accept] header, and
    an [Authorization] header for the token of the command line when it is a
    non-empty string, else for the token of the environment when that is a
    non-empty string, else none. *)
Theorem run_credentials (args : Namespace) (w : World) :
  let token := py_or (arg_token args) (environ !! "GITHUB_TOKEN") in
  Forall (sent_with token) (events (run remote strptime environ args w))
  /\ auth_headers token !! "Accept" = Some "application/vnd.github+json"
  /\ auth_headers token !! "Authorization"
     = match arg_token args, environ !! "GITHUB_TOKEN" with
       | Some (String a t), _ => Some ("token " +:+ String a t)
       | _, Some (String a t) => Some ("token " +:+ String a t)
       | _, _ => None
       end.
Proof.
  intros token. split; [|split].
  - unfold run.
    destruct (parse_date strptime (arg_start args)) as [msg|s]; [repeat constructor|].
    destruct (parse_date strptime (arg_end args)) as [msg|e]; [repeat constructor|].
    destruct (s >? e); [repeat constructor|].
    cbn zeta. fold token. destruct (negb _); [repeat constructor|].
    destruct (arg_per_term args).
    + apply events_bind_Forall; [apply sent_with_per_term_loop|]. intros; repeat constructor.
    + apply events_bind_Forall; [apply sent_with_count_range_fuel|]. intros; repeat constructor.
  - unfold auth_headers. destruct token as [[|a t]|]; reflexivity.
  - subst token. unfold py_or, auth_headers.
    destruct (arg_token args) as [[|a t]|]; cbn [str_truthy];
      destruct (environ !! "GITHUB_TOKEN") as [[|a' t']|]; reflexivity.
Qed.

(** X7. The exit codes of a run that returns: 2 after a usage error only, with a
    single line printed, no request sent and the service left as it was; and
    otherwise 0, the last event being the line of the total. *)
Theorem run_exit_codes (args : Namespace) (w : World) (c : Z) :
  out (run remote strptime environ args w) = Ok c ->
  (c = 2
   /\ ((exists msg, parse_date strptime (arg_start args) = inl msg)
       \/ (exists msg, parse_date strptime (arg_end args) = inl msg)
       \/ (exists s e, parse_date strptime (arg_start args) = inr s
                       /\ parse_date strptime (arg_end args) = inr e /\ s > e)
       \/ (arg_topics args = [] /\ arg_keywords args = []))
   /\ world (run remote strptime environ args w) = w
   /\ exists line, events (run remote strptime environ args w) = [Print line])
  \/ (c = 0
      /\ exists (pre : list event) (total : Z),
           events (run remote strptime environ args w)
           = (pre ++ [Print ((if arg_per_term args
                              then "TOTAL (sum of terms): "
                              else "TOTAL matching any provided topics/keywords: ")
                             +:+ pretty total)])%list).
Proof.
  unfold run.
  destruct (parse_date strptime (arg_start args)) as [msg|s] eqn:Hs.
  { cbn. intros [= <-]. left. repeat split; eauto. }
  destruct (parse_date strptime (arg_end args)) as [msg|e] eqn:He.
  { cbn. intros [= <-]. left. repeat split; eauto. }
  destruct (s >? e) eqn:Hgt.
  { cbn. intros [= <-]. left. repeat split; eauto.
    right. right. left. exists s, e. repeat split.
    rewrite Z.gtb_ltb in Hgt. apply Z.ltb_lt in Hgt. lia. }
  cbn zeta.
  destruct (negb (str_truthy (build_query (arg_topics args) (arg_keywords args)))) eqn:Hq.
  { cbn. intros [= <-]. left. repeat split; eauto.
    right. right. right. apply build_query_nonempty, str_truthy_false.
    now apply negb_true_iff. }
  destruct (arg_per_term args).
  - rewrite bind_run.
    destruct (out (per_term_loop _ _ _ _ _ _ _ _)) as [results|x|]; cbn [out prepend];
      try discriminate.
    intros [= <-]. right. split; [reflexivity|]. eexists _, _. reflexivity.
  - rewrite bind_run.
    destruct (out (count_range _ _ _ _ _ _ _)) as [total|x|]; cbn [out prepend];
      try discriminate.
    intros [= <-]. right. split; [reflexivity|]. eexists _, _. reflexivity.
Qed.







End RunProperties.

(** ** The total of the per-term mode *)







Section PerTermTotal.

Context {World : Type}.
Variable remote : request -> World -> response * World.
Variable strptime : string -> string -> string + datetime.
Variable environ : gmap string string.

(** The service is stateless and answers every request with a success
    status. *)
Variable answer : request -> response.
Hypothesis remote_stateless : forall req w, remote req w = (answer req, w).
Hypothesis answer_ok : forall req, response_ok (answer req) = true.



End PerTermTotal.

(** A topic, even the empty one, makes a query. *)
Lemma build_query_empty_iff_witness : build_query [""] [] <> "".
Proof. intros H. apply build_query_empty_iff in H as [H _]. discriminate H. Defined.

(** The first ten days of 2020 in exact mode, every total 1000: no line, no
    sleep among the events. *)
Lemma count_range_requests_in_range_witness :
  lines_of (events (count_range (Mock.constant 1000) "topic:cli" (midnight (ymd2ord 2020 1 1))
                      (midnight (ymd2ord 2020 1 10)) None true tt)) = [].
Proof.
  apply (count_range_requests_in_range (Mock.constant 1000) "topic:cli"
           (midnight (ymd2ord 2020 1 1)) (midnight (ymd2ord 2020 1 10)) None true tt).
  now vm_compute.
Defined.

(** The end-to-end scenario returns 0, not 2. *)
Lemma run_exit_codes_witness :
  let args := {| arg_start := "2020-01-01"; arg_end := "2020-12-31";
                 arg_topics := ["cli"]; arg_keywords := ["tool"];
                 arg_per_term := false; arg_token := None; arg_exact := false;
                 arg_sleep := 0%Q |} in
  exists (pre : list event) (total : Z),
    events (run (Mock.constant 42) Mock.strptime ∅ args tt)
    = (pre ++ [Print ("TOTAL matching any provided topics/keywords: " +:+ pretty total)])%list.
Proof.
  intros args.
  destruct (run_exit_codes (Mock.constant 42) Mock.strptime ∅ args tt 0
              ltac:(vm_compute; reflexivity)) as [[H _] | [_ H]]; [discriminate H | exact H].
Defined.




Example run_per_term_duplicate :
  let args := {| arg_start := "2020-01-01"; arg_end := "2020-12-31";
                 arg_topics := ["cli"; "cli"]; arg_keywords := ["tool"];
                 arg_per_term := true; arg_token := None; arg_exact := false;
                 arg_sleep := 0%Q |} in
  lines_of (events (run (Mock.constant 42) Mock.strptime ∅ args tt))
  = [ "topic:cli: 42"; "topic:cli: 42"; "tool in:name,description,readme: 42";
      "TOTAL (sum of terms): 84" ].
Proof. vm_compute. reflexivity. Qed.

(** Midnight to noon of one day, every total 1000. *)
Lemma same_date_requests_repeat_witness :
  Forall (fun ev => exists resp,
            ev = Call (range_request "topic:cli" (midnight (ymd2ord 2020 1 1))
                         (midnight (ymd2ord 2020 1 1) + us_per_day / 2) None) resp)
    (events (count_range (Mock.constant 1000) "topic:cli" (midnight (ymd2ord 2020 1 1))
               (midnight (ymd2ord 2020 1 1) + us_per_day / 2) None true tt)).
Proof.
  apply same_date_requests_repeat; now vm_compute.
Defined.

